(** * Auto-Dumper-FunPay: the pricing cycle of [auto_dumper.py]

    A shallow embedding of the class [PriceDumper] of [src/auto_dumper.py]
    and the properties its specification states about it.

    - Python values are modelled as the program meets them: JSON scalars
      ([atom]), JSON containers ([pyval]), binary64 floats ([spec_float] of
      the Standard Library, precision 53, maximal exponent 1024).
    - The configuration dictionary is a [gmap string pyval].
    - Methods that raise return a [result]; methods that also talk to the
      marketplace or to Telegram run in the monad [M], which threads the
      [PriceDumper] object and records the external calls that were made.
    - Calls to [logger] are not modelled: they never change control flow. *)

From Stdlib Require Import ZArith List String Bool Lia.
From Stdlib Require Import Floats.SpecFloat.
From stdpp Require Import base option list gmap strings fin_maps.

Local Open Scope string_scope.
Local Open Scope Z_scope.
Local Open Scope list_scope.
#[local] Set Warnings "-register-all".

(** ** Python values *)

(** [float]: IEEE-754 binary64. *)
Definition pyfloat : Type := spec_float.
Definition prec : Z := 53.
Definition emax : Z := 1024.

Definition fsub (x y : pyfloat) : pyfloat := SFsub prec emax x y.

(** The nearest binary64 of an integer (ties to even); an infinity when the
    integer is out of range. *)
Definition float_of_Z (z : Z) : pyfloat := binary_normalize prec emax z 0 false.

(** Subclasses of [Exception] that the program can meet. *)
Inductive pyexc : Type :=
| KeyError (k : string)
| TypeError
| ValueError
| OverflowError
| AttributeError
| OSError
| ExternalError.

Inductive result (A : Type) : Type :=
| Ok (a : A)
| Raise (e : pyexc).
Arguments Ok {A} a.
Arguments Raise {A} e.

Definition rbind {A B : Type} (r : result A) (k : A -> result B) : result B :=
  match r with
  | Ok a => k a
  | Raise e => Raise e
  end.

Notation "'let?' x := r 'in' k" := (rbind r (fun x => k))
  (at level 10, x name, r at level 100, k at level 200).

(** JSON scalars: [None], [bool], [int], [float], [str]. Identifiers that
    the marketplace API returns (seller id, seller name, lot id) are such
    scalars. *)
Inductive atom : Type :=
| ANone
| ABool (b : bool)
| AInt (z : Z)
| AFloat (f : pyfloat)
| AStr (s : string).

(** What [json.load] can return. A [dict] is kept as its items, in
    insertion order. *)
Inductive pyval : Type :=
| PAtom (a : atom)
| PList (l : list pyval)
| PDict (d : list (string * pyval)).

Definition PInt (z : Z) : pyval := PAtom (AInt z).
Definition PFloat (f : pyfloat) : pyval := PAtom (AFloat f).
Definition PStr (s : string) : pyval := PAtom (AStr s).
Definition PNone : pyval := PAtom ANone.

(** [bool] is a subclass of [int]. *)
Definition as_int (a : atom) : option Z :=
  match a with
  | ABool b => Some (Z.b2z b)
  | AInt z => Some z
  | _ => None
  end.

(** Python compares a float with an int exactly, without converting the
    int. [None] when the float is a NaN. *)
Definition float_cmp_int (f : pyfloat) (z : Z) : option comparison :=
  match f with
  | S754_nan => None
  | S754_infinity s => Some (if s then Lt else Gt)
  | S754_zero _ => Some (0 ?= z)
  | S754_finite s m e =>
      let n := if s then Z.neg m else Z.pos m in
      if 0 <=? e then Some (n * 2 ^ e ?= z) else Some (n ?= z * 2 ^ (- e))
  end.

(** [float(n)] for an int [n]: [OverflowError] when out of range. *)
Definition py_float_of_int (z : Z) : result pyfloat :=
  match float_of_Z z with
  | S754_infinity _ => Raise OverflowError
  | f => Ok f
  end.

(** [x - v] for a float [x]: an int operand is converted to float first. *)
Definition float_sub_val (x : pyfloat) (v : pyval) : result pyfloat :=
  match v with
  | PAtom (AFloat y) => Ok (fsub x y)
  | PAtom a =>
      match as_int a with
      | Some z => let? y := py_float_of_int z in Ok (fsub x y)
      | None => Raise TypeError
      end
  | _ => Raise TypeError
  end.

(** [x < v] for a float [x]. *)
Definition float_lt_val (x : pyfloat) (v : pyval) : result bool :=
  match v with
  | PAtom (AFloat y) => Ok (SFltb x y)
  | PAtom a =>
      match as_int a with
      | Some z => Ok (match float_cmp_int x z with Some Lt => true | _ => false end)
      | None => Raise TypeError
      end
  | _ => Raise TypeError
  end.

(** [a == b] on scalars. Numbers compare by value across [bool], [int] and
    [float]; a number never equals a string. *)
Definition atom_eq (a b : atom) : bool :=
  match a, b with
  | ANone, ANone => true
  | AStr s, AStr t => String.eqb s t
  | AFloat x, AFloat y => SFeqb x y
  | AFloat x, _ =>
      match as_int b with
      | Some z => match float_cmp_int x z with Some Eq => true | _ => false end
      | None => false
      end
  | _, AFloat y =>
      match as_int a with
      | Some z => match float_cmp_int y z with Some Eq => true | _ => false end
      | None => false
      end
  | _, _ =>
      match as_int a, as_int b with
      | Some x, Some y => x =? y
      | _, _ => false
      end
  end.

(** [a == v] for a scalar [a]: never equal to a list or a dict. *)
Definition py_eq (a : atom) (v : pyval) : bool :=
  match v with
  | PAtom b => atom_eq a b
  | _ => false
  end.

(** Truth value of an object ([not v] is its negation). *)
Definition py_truthy (v : pyval) : bool :=
  match v with
  | PAtom ANone => false
  | PAtom (ABool b) => b
  | PAtom (AInt z) => negb (z =? 0)
  | PAtom (AFloat f) => negb (SFeqb f (S754_zero false))
  | PAtom (AStr s) => negb (String.eqb s EmptyString)
  | PList l => match l with [] => false | _ => true end
  | PDict d => match d with [] => false | _ => true end
  end.

(** [t in s] on strings: [t] occurs in [s]. *)
Fixpoint str_contains (t s : string) : bool :=
  String.prefix t s ||
  match s with
  | EmptyString => false
  | String _ s' => str_contains t s'
  end.

(** [x in w] for a scalar [x]: membership in a list, key membership in a
    dict, substring in a string; other right operands are not iterable. *)
Definition py_in (x : atom) (w : pyval) : result bool :=
  match w with
  | PList l => Ok (existsb (py_eq x) l)
  | PDict d => Ok (existsb (fun kv => atom_eq x (AStr (fst kv))) d)
  | PAtom (AStr s) =>
      match x with
      | AStr t => Ok (str_contains t s)
      | _ => Raise TypeError
      end
  | PAtom _ => Raise TypeError
  end.

(** [cfg[k]] *)
Definition getitem (cfg : gmap string pyval) (k : string) : result pyval :=
  match cfg !! k with
  | Some v => Ok v
  | None => Raise (KeyError k)
  end.

(** ** The data of a cycle *)

(** A lot as the marketplace API returns it. [lot_price] is the outcome of
    [float(lot.price)]: the float, or the exception that the conversion
    raises. *)
Record lot : Type := Lot {
  user_id : atom;
  user_name : atom;
  lot_price : result pyfloat;
  id : atom
}.

(** The dictionary that [get_market_prices] builds for one lot; its four
    keys are fixed. *)
Record seller : Type := Seller {
  seller_id : atom;
  seller_name : atom;
  price : pyfloat;
  lot_id : atom
}.

Record Bot : Type := { token : pyval }.

Record Account : Type := { username : pyval; password : pyval }.

(** The text of the success notification (lines 246-251), kept as its four
    interpolated values. *)
Inductive message : Type :=
| PriceLowered (old_price : pyfloat) (new_price : pyval)
               (competitor_name : atom) (competitor_price : pyfloat).

(** The object [self]. *)
Record PriceDumper : Type := {
  config : gmap string pyval;
  bot : option Bot;
  funpay_account : option Account
}.

(** Calls that leave the process, in the order they are made. *)
Inductive event : Type :=
| EvLogin (user pass : pyval)
| EvGetLots (game_id server_id : pyval)
| EvChangeLotPrice (lot new_price : pyval)
| EvSendMessage (chat_id : pyval) (text : message).

(** How the outer world answers during one run of a method: the content of
    the configuration file, the marketplace and Telegram. *)
Record World : Type := {
  json_load : string -> result pyval;
  account_new : pyval -> pyval -> result unit;
  get_lots : Account -> pyval -> pyval -> result (list lot);
  change_lot_price : Account -> pyval -> pyval -> result unit;
  send_message : Bot -> pyval -> message -> result unit
}.

(** ** The monad of methods *)

Definition M (A : Type) : Type :=
  PriceDumper -> result A * PriceDumper * list event.

Definition ret {A : Type} (a : A) : M A := fun self => (Ok a, self, []).

Definition bind {A B : Type} (m : M A) (k : A -> M B) : M B := fun self =>
  match m self with
  | (Ok a, self1, t1) =>
      match k a self1 with
      | (r, self2, t2) => (r, self2, t1 ++ t2)
      end
  | (Raise e, self1, t1) => (Raise e, self1, t1)
  end.

(** [try: m except Exception as e: h e] *)
Definition try_except {A : Type} (m : M A) (h : pyexc -> M A) : M A := fun self =>
  match m self with
  | (Raise e, self1, t1) =>
      match h e self1 with
      | (r, self2, t2) => (r, self2, t1 ++ t2)
      end
  | other => other
  end.

Definition lift {A : Type} (r : result A) : M A := fun self => (r, self, []).

Definition get_self : M PriceDumper := fun self => (Ok self, self, []).

Definition set_config (cfg : gmap string pyval) : M unit := fun self =>
  (Ok tt, {| config := cfg; bot := bot self; funpay_account := funpay_account self |}, []).

Definition set_funpay_account (a : Account) : M unit := fun self =>
  (Ok tt, {| config := config self; bot := bot self; funpay_account := Some a |}, []).

(** An external call: recorded, then answered by the world. *)
Definition call {A : Type} (ev : event) (answer : result A) : M A := fun self =>
  (answer, self, [ev]).

Notation "'do' x <- m ; k" := (bind m (fun x => k))
  (at level 10, x name, m at level 100, k at level 200).

Definition outcome {A : Type} (x : result A * PriceDumper * list event) : result A :=
  fst (fst x).
Definition final {A : Type} (x : result A * PriceDumper * list event) : PriceDumper :=
  snd (fst x).
Definition trace {A : Type} (x : result A * PriceDumper * list event) : list event :=
  snd x.

(** ** The methods of [PriceDumper] *)

(** [user_config.items()]: only a dict has items. *)
Definition py_items (v : pyval) : result (list (string * pyval)) :=
  match v with
  | PDict d => Ok d
  | _ => Raise AttributeError
  end.

(** The loop of [load_config_file] over the items of the file: a key is
    written only when it is already a key of [self.config]. *)
Fixpoint update_from (items : list (string * pyval)) : M unit :=
  match items with
  | [] => ret tt
  | (key, value) :: rest =>
      do self <- get_self;
      do _ <- match config self !! key with
              | Some _ => set_config (<[key := value]> (config self))
              | None => ret tt
              end;
      update_from rest
  end.

Definition required_fields : list string :=
  ["game_id"; "server_id"; "lot_id"; "min_price"].

(** The validation loop: [False] at the first required field whose value
    is falsy, [True] when there is none. *)
Fixpoint validate (cfg : gmap string pyval) (fields : list string) : result bool :=
  match fields with
  | [] => Ok true
  | field :: rest =>
      let? v := getitem cfg field in
      if negb (py_truthy v) then Ok false else validate cfg rest
  end.

(** Lines 149-155. *)
Fixpoint find_my_listing_from (my_lot_id : pyval) (sellers : list seller) : option seller :=
  match sellers with
  | [] => None
  | s :: rest =>
      if py_eq (lot_id s) my_lot_id then Some s
      else find_my_listing_from my_lot_id rest
  end.

Definition find_my_listing (cfg : gmap string pyval) (sellers : list seller)
  : result (option seller) :=
  let? my_lot_id := getitem cfg "lot_id" in
  Ok (find_my_listing_from my_lot_id sellers).

(** Line 168: the test [seller_id in whitelist or seller_name in whitelist];
    the second membership is evaluated only when the first is false. *)
Definition in_whitelist (cfg : gmap string pyval) (s : seller) : result bool :=
  let? wl := getitem cfg "whitelist" in
  let? by_id := py_in (seller_id s) wl in
  if by_id then Ok true
  else
    let? wl' := getitem cfg "whitelist" in
    py_in (seller_name s) wl'.

(** Lines 162-172: the loop of [find_cheapest_competitor], with the value
    of [cheapest] so far. *)
Fixpoint find_cheapest_from (cfg : gmap string pyval) (my_lot_id : pyval)
    (cheapest : option seller) (sellers : list seller) : result (option seller) :=
  match sellers with
  | [] => Ok cheapest
  | s :: rest =>
      if py_eq (lot_id s) my_lot_id then find_cheapest_from cfg my_lot_id cheapest rest
      else
        let? skip := in_whitelist cfg s in
        if skip then find_cheapest_from cfg my_lot_id cheapest rest
        else
          match cheapest with
          | None => find_cheapest_from cfg my_lot_id (Some s) rest
          | Some c =>
              if SFltb (price s) (price c)
              then find_cheapest_from cfg my_lot_id (Some s) rest
              else find_cheapest_from cfg my_lot_id cheapest rest
          end
  end.

Definition find_cheapest_competitor (cfg : gmap string pyval) (sellers : list seller)
  : result (option seller) :=
  let? my_lot_id := getitem cfg "lot_id" in
  find_cheapest_from cfg my_lot_id None sellers.

(** Lines 132-140: one dictionary per lot; the first price that does not
    convert raises. *)
Fixpoint collect_sellers (all_lots : list lot) : result (list seller) :=
  match all_lots with
  | [] => Ok []
  | l :: rest =>
      let? p := lot_price l in
      let? sellers := collect_sellers rest in
      Ok (Seller (user_id l) (user_name l) p (id l) :: sellers)
  end.

Section Methods.

Variable w : World.

Definition load_config_file (config_path : string) : M bool :=
  try_except
    (do user_config <- lift (json_load w config_path);
     do items <- lift (py_items user_config);
     do _ <- update_from items;
     do self <- get_self;
     lift (validate (config self) required_fields))
    (fun _ => ret false).

Definition send_telegram_notification (text : message) : M bool :=
  do self <- get_self;
  match bot self with
  | None => ret false
  | Some b =>
      try_except
        (do chat_id <- lift (getitem (config self) "telegram_chat_id");
         do _ <- call (EvSendMessage chat_id text) (send_message w b chat_id text);
         ret true)
        (fun _ => ret false)
  end.

Definition login_to_funpay : M bool :=
  try_except
    (do self <- get_self;
     do user <- lift (getitem (config self) "funpay_username");
     if negb (py_truthy user) then ret false
     else
       do pass <- lift (getitem (config self) "funpay_password");
       if negb (py_truthy pass) then ret false
       else
         do _ <- call (EvLogin user pass) (account_new w user pass);
         do _ <- set_funpay_account {| username := user; password := pass |};
         ret true)
    (fun _ => ret false).

Definition get_market_prices : M (list seller) :=
  try_except
    (do self <- get_self;
     match funpay_account self with
     | None => ret []
     | Some account =>
         do game_id <- lift (getitem (config self) "game_id");
         do server_id <- lift (getitem (config self) "server_id");
         do all_lots <- call (EvGetLots game_id server_id)
                             (get_lots w account game_id server_id);
         lift (collect_sellers all_lots)
     end)
    (fun _ => ret []).

Definition update_my_price (new_price : pyval) : M bool :=
  try_except
    (do self <- get_self;
     match funpay_account self with
     | None => ret false
     | Some account =>
         do lot <- lift (getitem (config self) "lot_id");
         do _ <- call (EvChangeLotPrice lot new_price)
                      (change_lot_price w account lot new_price);
         ret true
     end)
    (fun _ => ret false).

Definition check_and_update_price : M unit :=
  do self <- get_self;
  do logged_in <- match funpay_account self with
                  | Some _ => ret true
                  | None => login_to_funpay
                  end;
  if negb logged_in then ret tt
  else
    do sellers <- get_market_prices;
    match sellers with
    | [] => ret tt
    | _ :: _ =>
        do self <- get_self;
        do my_listing <- lift (find_my_listing (config self) sellers);
        match my_listing with
        | None => ret tt
        | Some my_listing =>
            do cheapest <- lift (find_cheapest_competitor (config self) sellers);
            match cheapest with
            | None => ret tt
            | Some cheapest_competitor =>
                if SFleb (price my_listing) (price cheapest_competitor) then ret tt
                else
                  do self <- get_self;
                  do decrease <- lift (getitem (config self) "price_decrease_amount");
                  do lowered <- lift (float_sub_val (price cheapest_competitor) decrease);
                  do min_price <- lift (getitem (config self) "min_price");
                  do below <- lift (float_lt_val lowered min_price);
                  let new_price := if below then min_price else PFloat lowered in
                  do updated <- update_my_price new_price;
                  if updated then
                    do _ <- send_telegram_notification
                              (PriceLowered (price my_listing) new_price
                                 (seller_name cheapest_competitor)
                                 (price cheapest_competitor));
                    ret tt
                  else ret tt
            end
        end
    end.

End Methods.

(** ** Notions used in the statements *)

(** A key that sorts the floats that are not NaN as [SFcompare] does: sign
    class first, then exponent, then mantissa (both reversed below zero). *)
Definition rank (x : pyfloat) : Z * Z * Z :=
  match x with
  | S754_nan => (0, 0, 0)
  | S754_zero _ => (0, 0, 0)
  | S754_infinity s => (if s then -2 else 2, 0, 0)
  | S754_finite s m e => if s then (-1, - e, Z.neg m) else (1, e, Z.pos m)
  end.

Definition lex_lt (a b : Z * Z * Z) : Prop :=
  let '(a1, a2, a3) := a in
  let '(b1, b2, b3) := b in
  a1 < b1 \/ (a1 = b1 /\ (a2 < b2 \/ (a2 = b2 /\ a3 < b3))).

Definition is_nan (x : pyfloat) : bool :=
  match x with
  | S754_nan => true
  | _ => false
  end.

(** "Neither self nor whitelisted", for a whitelist that is a list. *)
Definition whitelisted (wl : list pyval) (s : seller) : bool :=
  existsb (py_eq (seller_id s)) wl || existsb (py_eq (seller_name s)) wl.

Definition eligible (my_lot_id : pyval) (wl : list pyval) (s : seller) : bool :=
  negb (py_eq (lot_id s) my_lot_id) && negb (whitelisted wl s).

(** The invariant of the loop of [find_cheapest_competitor]: after the
    entries [seen], [cheapest] is the first eligible entry of least price. *)
Definition cheapest_so_far (my : pyval) (wl : list pyval)
    (seen : list seller) (cheapest : option seller) : Prop :=
  match cheapest with
  | None => Forall (fun s => eligible my wl s = false) seen
  | Some c =>
      exists i : nat, seen !! i = Some c /\ eligible my wl c = true /\
        (forall e, e ∈ seen -> eligible my wl e = true ->
           SFleb (price c) (price e) = true) /\
        (forall (j : nat) e, (j < i)%nat -> seen !! j = Some e ->
           eligible my wl e = true -> SFltb (price c) (price e) = true)
  end.

Definition priced (s : seller) : Prop := is_nan (price s) = false.

Definition with_account (self : PriceDumper) (a : Account) : PriceDumper :=
  {| config := config self; bot := bot self; funpay_account := Some a |}.

Definition with_config (self : PriceDumper) (cfg : gmap string pyval) : PriceDumper :=
  {| config := cfg; bot := bot self; funpay_account := funpay_account self |}.

(** The configuration after the loop of [load_config_file]. *)
Fixpoint merged (cfg : gmap string pyval) (items : list (string * pyval))
  : gmap string pyval :=
  match items with
  | [] => cfg
  | (key, value) :: rest =>
      merged (match cfg !! key with
              | Some _ => <[key := value]> cfg
              | None => cfg
              end) rest
  end.

(** The value that a dict built from [items] holds for [k]: the last one. *)
Fixpoint item_value (k : string) (items : list (string * pyval)) : option pyval :=
  match items with
  | [] => None
  | (key, value) :: rest =>
      match item_value k rest with
      | Some v => Some v
      | None => if String.eqb key k then Some value else None
      end
  end.

(** The value of key [k] in the configuration file, when the file holds a
    JSON object with that key. *)
Definition file_value (w : World) (config_path k : string) : option pyval :=
  match json_load w config_path with
  | Ok (PDict items) => item_value k items
  | _ => None
  end.

(** Lines 231-252 of [check_and_update_price] on their own: what the cycle
    does once it holds the own listing and the cheapest competitor. *)
Definition undercut (w : World) (my_listing cheapest_competitor : seller) : M unit :=
  if SFleb (price my_listing) (price cheapest_competitor) then ret tt
  else
    do self <- get_self;
    do decrease <- lift (getitem (config self) "price_decrease_amount");
    do lowered <- lift (float_sub_val (price cheapest_competitor) decrease);
    do min_price <- lift (getitem (config self) "min_price");
    do below <- lift (float_lt_val lowered min_price);
    let new_price := if below then min_price else PFloat lowered in
    do updated <- update_my_price w new_price;
    if updated then
      do _ <- send_telegram_notification w
                (PriceLowered (price my_listing) new_price
                   (seller_name cheapest_competitor) (price cheapest_competitor));
      ret tt
    else ret tt.

(** The state in which the snapshot is fetched: [self], after the login on
    demand of lines 203-206. *)
Definition logged_in (w : World) (self : PriceDumper) : PriceDumper :=
  match funpay_account self with
  | Some _ => self
  | None => final (login_to_funpay w self)
  end.

(** The calls of that login. *)
Definition login_trace (w : World) (self : PriceDumper) : list event :=
  match funpay_account self with
  | Some _ => []
  | None => trace (login_to_funpay w self)
  end.

(** ** The pricing decision *)

Inductive Decision : Type :=
| NoAction
| SetPrice (new_price : pyval).

(** The operation [decide] as the specification words it: no action when
    [my_price <= competitor_price]; otherwise the competitor's price less
    the decrement, replaced by the floor when it is below the floor. *)
Definition spec_decide (my_price competitor_price : pyfloat)
    (decrease_amount min_price : pyval) : result Decision :=
  if SFleb my_price competitor_price then Ok NoAction
  else
    let? new_price := float_sub_val competitor_price decrease_amount in
    let? below := float_lt_val new_price min_price in
    Ok (SetPrice (if below then min_price else PFloat new_price)).

(** The prices that a run asked the marketplace to set. *)
Fixpoint price_updates (t : list event) : list pyval :=
  match t with
  | [] => []
  | EvChangeLotPrice _ p :: t' => p :: price_updates t'
  | _ :: t' => price_updates t'
  end.

(** The messages that a run handed to Telegram. *)
Fixpoint notifications (t : list event) : list message :=
  match t with
  | [] => []
  | EvSendMessage _ text :: t' => text :: notifications t'
  | _ :: t' => notifications t'
  end.

(** The decision that a cycle took, read off the calls it made. *)
Definition decision_of (t : list event) : Decision :=
  match price_updates t with
  | [] => NoAction
  | p :: _ => SetPrice p
  end.

(** ** Concrete data *)

(** The module-level dictionary [CONFIG] (lines 30-42); the four values read
    from the environment are its parameters. *)
Definition CONFIG (telegram_token telegram_chat_id funpay_username funpay_password : pyval)
  : gmap string pyval :=
  list_to_map
    [("check_interval_minutes", PInt 10);
     ("price_decrease_amount", PInt 1);
     ("min_price", PInt 0);
     ("telegram_token", telegram_token);
     ("telegram_chat_id", telegram_chat_id);
     ("funpay_username", funpay_username);
     ("funpay_password", funpay_password);
     ("game_id", PStr "");
     ("server_id", PStr "");
     ("lot_id", PStr "");
     ("whitelist", PList [])].

(** [m * 2^e] as a binary64, for writing prices such as 7.5. *)
Definition dyadic (m e : Z) : pyfloat := binary_normalize prec emax m e false.

Module Sample.

Definition me : seller := Seller (AInt 1) (AStr "me") (float_of_Z 100) (AStr "L1").
Definition seller_A : seller := Seller (AInt 2) (AStr "A") (float_of_Z 90) (AStr "L2").
Definition seller_B : seller := Seller (AInt 3) (AStr "B") (float_of_Z 50) (AStr "L3").
Definition seller_C : seller := Seller (AInt 4) (AStr "C") (float_of_Z 90) (AStr "L4").
Definition me_again : seller := Seller (AInt 1) (AStr "me") (float_of_Z 80) (AStr "L1").

(** The scenario of the specification: self at 100, A at 90, B at 50 and
    whitelisted. *)
Definition snapshot : list seller := [me; seller_A; seller_B].

Definition cfg : gmap string pyval :=
  <["whitelist" := PList [PStr "B"]]>
    (<["lot_id" := PStr "L1"]> (CONFIG PNone PNone (PStr "user") (PStr "secret"))).

End Sample.

Module Market.

(** Two lots on the market: the own one, [L1], and a competitor's. *)
Definition lots (my_price competitor_price : pyfloat) : list lot :=
  [Lot (AInt 1) (AStr "me") (Ok my_price) (AStr "L1");
   Lot (AInt 2) (AStr "A") (Ok competitor_price) (AStr "L2")].

Definition world (my_price competitor_price : pyfloat) (update : result unit) : World :=
  {| json_load := fun _ => Raise OSError;
     account_new := fun _ _ => Ok tt;
     get_lots := fun _ _ _ => Ok (lots my_price competitor_price);
     change_lot_price := fun _ _ _ => update;
     send_message := fun _ _ _ => Ok tt |}.

(** A marketplace that cannot be queried. *)
Definition offline : World :=
  {| json_load := fun _ => Raise OSError;
     account_new := fun _ _ => Ok tt;
     get_lots := fun _ _ _ => Raise ExternalError;
     change_lot_price := fun _ _ _ => Ok tt;
     send_message := fun _ _ _ => Ok tt |}.

Definition cfg (decrease_amount min_price : pyval) : gmap string pyval :=
  <["price_decrease_amount" := decrease_amount]>
    (<["min_price" := min_price]>
       (<["game_id" := PStr "game"]>
          (<["server_id" := PStr "server"]>
             (<["lot_id" := PStr "L1"]>
                (CONFIG (PStr "token") (PInt 42) (PStr "user") (PStr "secret")))))).

Definition dumper (decrease_amount min_price : pyval) : PriceDumper :=
  {| config := cfg decrease_amount min_price;
     bot := Some {| token := PStr "token" |};
     funpay_account := Some {| username := PStr "user"; password := PStr "secret" |} |}.

(** The same object before any login. *)
Definition fresh (decrease_amount min_price : pyval) : PriceDumper :=
  {| config := cfg decrease_amount min_price;
     bot := Some {| token := PStr "token" |};
     funpay_account := None |}.

End Market.

Module ConfigFile.

Definition self : PriceDumper :=
  {| config := CONFIG PNone PNone (PStr "user") (PStr "secret");
     bot := None;
     funpay_account := None |}.

(** A [config.json] with the three identifiers, a floor and a key that
    the program does not know. *)
Definition items (min_price : pyval) : list (string * pyval) :=
  [("game_id", PStr "41"); ("server_id", PStr "7"); ("lot_id", PStr "L1");
   ("min_price", min_price); ("colour", PStr "red")].

Definition world (min_price : pyval) : World :=
  {| json_load := fun _ => Ok (PDict (items min_price));
     account_new := fun _ _ => Ok tt;
     get_lots := fun _ _ _ => Ok [];
     change_lot_price := fun _ _ _ => Ok tt;
     send_message := fun _ _ _ => Ok tt |}.

End ConfigFile.

(** ** The constructor *)


(** ** Notions used in the further statements *)

(** The kinds of external calls. *)
Definition is_login (ev : event) : bool :=
  match ev with EvLogin _ _ => true | _ => false end.
Definition is_query (ev : event) : bool :=
  match ev with EvGetLots _ _ => true | _ => false end.
Definition is_update (ev : event) : bool :=
  match ev with EvChangeLotPrice _ _ => true | _ => false end.
Definition is_notification (ev : event) : bool :=
  match ev with EvSendMessage _ _ => true | _ => false end.



(** The entry of the snapshot that line 135 builds for a lot. *)
Definition built_from (l : lot) (s : seller) : Prop :=
  seller_id s = user_id l /\ seller_name s = user_name l /\
  lot_price l = Ok (price s) /\ lot_id s = id l.

(** Every required field has a truthy value. *)
Definition validated (cfg : gmap string pyval) : Prop :=
  Forall (fun field => exists v, cfg !! field = Some v /\ py_truthy v = true)
    required_fields.

Module Edge.

(** A marketplace that refuses every login. *)
Definition refusing : World :=
  {| json_load := fun _ => Raise OSError;
     account_new := fun _ _ => Raise ExternalError;
     get_lots := fun _ _ _ => Ok (Market.lots (float_of_Z 10) (float_of_Z 8));
     change_lot_price := fun _ _ _ => Ok tt;
     send_message := fun _ _ _ => Ok tt |}.

(** A market on which the own lot is not listed. *)
Definition delisted : World :=
  {| json_load := fun _ => Raise OSError;
     account_new := fun _ _ => Ok tt;
     get_lots := fun _ _ _ =>
       Ok [Lot (AInt 2) (AStr "A") (Ok (float_of_Z 8)) (AStr "L2")];
     change_lot_price := fun _ _ _ => Ok tt;
     send_message := fun _ _ _ => Ok tt |}.

End Edge.

(** * Properties *)

(** ** The order of binary64 *)

Lemma SFcompare_rank (x y : pyfloat) :
  is_nan x = false -> is_nan y = false ->
  exists c, SFcompare x y = Some c /\
    (c = Lt <-> lex_lt (rank x) (rank y)) /\
    (c = Gt <-> lex_lt (rank y) (rank x)).
Proof.
  intros Hx Hy.
  assert (Hclose : forall (c : comparison) (a b : Z * Z * Z),
    (c = Lt <-> lex_lt a b) -> (c = Gt <-> lex_lt b a) ->
    exists c', Some c = Some c' /\ (c' = Lt <-> lex_lt a b) /\ (c' = Gt <-> lex_lt b a))
    by (intros c a b H1 H2; exists c; auto).
  destruct x as [sx | sx | | sx mx ex], y as [sy | sy | | sy my ey];
    try discriminate; destruct sx, sy; cbn [SFcompare rank];
    try (apply Hclose; cbn; split; intros H;
         first [ reflexivity | discriminate | lia | exfalso; lia ]).
  - destruct (Z.compare_spec ex ey) as [He | He | He];
      [ change (Pos.compare_cont Eq mx my) with (Pos.compare mx my);
        destruct (Pos.compare_spec mx my) as [Hm | Hm | Hm] | | ];
      apply Hclose; cbn; split; intros H;
      first [ reflexivity | discriminate | lia | exfalso; lia ].
  - destruct (Z.compare_spec ex ey) as [He | He | He];
      [ change (Pos.compare_cont Eq mx my) with (Pos.compare mx my);
        destruct (Pos.compare_spec mx my) as [Hm | Hm | Hm] | | ];
      apply Hclose; cbn; split; intros H;
      first [ reflexivity | discriminate | lia | exfalso; lia ].
Qed.

Lemma SFltb_rank (x y : pyfloat) :
  is_nan x = false -> is_nan y = false ->
  SFltb x y = true <-> lex_lt (rank x) (rank y).
Proof.
  intros Hx Hy. unfold SFltb.
  destruct (SFcompare_rank x y Hx Hy) as (c & -> & Hlt & _).
  rewrite <- Hlt. destruct c; split; intros H; congruence.
Qed.

Lemma SFleb_rank (x y : pyfloat) :
  is_nan x = false -> is_nan y = false ->
  SFleb x y = true <-> ~ lex_lt (rank y) (rank x).
Proof.
  intros Hx Hy. unfold SFleb.
  destruct (SFcompare_rank x y Hx Hy) as (c & -> & _ & Hgt).
  rewrite <- Hgt. destruct c; split; intros H; congruence.
Qed.

Lemma lex_lt_le_trans (a b c : Z * Z * Z) :
  lex_lt a b -> ~ lex_lt c b -> lex_lt a c.
Proof.
  destruct a as [[a1 a2] a3], b as [[b1 b2] b3], c as [[c1 c2] c3].
  unfold lex_lt. lia.
Qed.

Lemma lex_lt_irrefl (a : Z * Z * Z) : ~ lex_lt a a.
Proof. destruct a as [[a1 a2] a3]. unfold lex_lt. lia. Qed.

Lemma lex_lt_asym (a b : Z * Z * Z) : lex_lt a b -> ~ lex_lt b a.
Proof.
  destruct a as [[a1 a2] a3], b as [[b1 b2] b3]. unfold lex_lt. lia.
Qed.

Lemma SFleb_refl (x : pyfloat) : is_nan x = false -> SFleb x x = true.
Proof. intros Hx. apply SFleb_rank; auto using lex_lt_irrefl. Qed.

Lemma SFltb_false_leb (x y : pyfloat) :
  is_nan x = false -> is_nan y = false -> SFltb x y = false -> SFleb y x = true.
Proof.
  intros Hx Hy H. apply SFleb_rank; auto.
  intros Hlt. apply (SFltb_rank x y Hx Hy) in Hlt. congruence.
Qed.

Lemma SFltb_leb_trans (x y z : pyfloat) :
  is_nan x = false -> is_nan y = false -> is_nan z = false ->
  SFltb x y = true -> SFleb y z = true -> SFltb x z = true.
Proof.
  intros Hx Hy Hz Hxy Hyz.
  apply SFltb_rank in Hxy; auto. apply SFleb_rank in Hyz; auto.
  apply SFltb_rank; auto. eapply lex_lt_le_trans; eauto.
Qed.

Lemma SFltb_leb (x y : pyfloat) :
  is_nan x = false -> is_nan y = false -> SFltb x y = true -> SFleb x y = true.
Proof.
  intros Hx Hy H. apply SFltb_rank in H; auto.
  apply SFleb_rank; auto using lex_lt_asym.
Qed.

(** ** Locating the own listing and the cheapest competitor *)

Lemma find_my_listing_from_Some (my : pyval) (sellers : list seller) (s : seller) :
  find_my_listing_from my sellers = Some s ->
  exists i : nat, sellers !! i = Some s /\ py_eq (lot_id s) my = true /\
    forall (j : nat) (e : seller), (j < i)%nat -> sellers !! j = Some e ->
      py_eq (lot_id e) my = false.
Proof.
  induction sellers as [| a rest IH]; cbn [find_my_listing_from]; [discriminate |].
  destruct (py_eq (lot_id a) my) eqn:Ha.
  - intros [= ->]. exists 0%nat. repeat split; auto. intros j e Hj. lia.
  - intros H. destruct (IH H) as (i & Hi & Hs & Hbefore).
    exists (S i). repeat split; auto.
    intros [| j] e Hj He; cbn in He.
    + congruence.
    + apply (Hbefore j); [lia | assumption].
Qed.

Lemma find_my_listing_from_None (my : pyval) (sellers : list seller) :
  find_my_listing_from my sellers = None <->
  Forall (fun s => py_eq (lot_id s) my = false) sellers.
Proof.
  induction sellers as [| a rest IH]; cbn [find_my_listing_from].
  - split; auto.
  - destruct (py_eq (lot_id a) my) eqn:Ha.
    + split; [discriminate |]. intros H. inversion H; congruence.
    + rewrite IH. split; [auto | intros H; inversion H; auto].
Qed.

Lemma in_whitelist_false (cfg : gmap string pyval) (s : seller) :
  in_whitelist cfg s = Ok false ->
  exists wl, cfg !! "whitelist" = Some wl /\
    py_in (seller_id s) wl = Ok false /\ py_in (seller_name s) wl = Ok false.
Proof.
  unfold in_whitelist, getitem.
  destruct (cfg !! "whitelist") as [wl |]; cbn [rbind]; [| discriminate].
  destruct (py_in (seller_id s) wl) as [[|] | e] eqn:Hid; cbn [rbind];
    try discriminate.
  intros H. exists wl. auto.
Qed.

Lemma in_whitelist_list (cfg : gmap string pyval) (wl : list pyval) (s : seller) :
  cfg !! "whitelist" = Some (PList wl) ->
  in_whitelist cfg s = Ok (whitelisted wl s).
Proof.
  intros H. unfold in_whitelist, getitem, whitelisted. rewrite H. cbn.
  destruct (existsb (py_eq (seller_id s)) wl); reflexivity.
Qed.

(** What the loop returns is the value it started from or an entry that
    passed both tests. *)
Lemma find_cheapest_from_Some (cfg : gmap string pyval) (my : pyval)
    (sellers : list seller) (acc : option seller) (c : seller) :
  find_cheapest_from cfg my acc sellers = Ok (Some c) ->
  acc = Some c \/
  (c ∈ sellers /\ py_eq (lot_id c) my = false /\ in_whitelist cfg c = Ok false).
Proof.
  revert acc. induction sellers as [| s rest IH]; intros acc; cbn [find_cheapest_from].
  - intros [= ->]. auto.
  - assert (Hrest : forall acc', find_cheapest_from cfg my acc' rest = Ok (Some c) ->
              acc' = Some c \/
              (c ∈ s :: rest /\ py_eq (lot_id c) my = false /\ in_whitelist cfg c = Ok false)).
    { intros acc' H. destruct (IH _ H) as [-> | (Hin & Hself & Hwl)]; auto.
      right. repeat split; auto. apply elem_of_cons; auto. }
    assert (Hnew : py_eq (lot_id s) my = false -> in_whitelist cfg s = Ok false ->
              find_cheapest_from cfg my (Some s) rest = Ok (Some c) ->
              acc = Some c \/
              (c ∈ s :: rest /\ py_eq (lot_id c) my = false /\ in_whitelist cfg c = Ok false)).
    { intros Hself Hwl H. destruct (Hrest _ H) as [[= <-] | H']; auto.
      right. repeat split; auto. apply elem_of_cons; auto. }
    destruct (py_eq (lot_id s) my) eqn:Hself; [apply Hrest |].
    destruct (in_whitelist cfg s) as [[|] | e] eqn:Hwl; cbn [rbind];
      [apply Hrest | | discriminate].
    destruct acc as [c0 |]; [| auto].
    destruct (SFltb (price s) (price c0)); auto.
Qed.

(** Entries with the own lot id do not take part in the loop at all. *)
Lemma find_cheapest_from_filter (cfg : gmap string pyval) (my : pyval)
    (sellers : list seller) (acc : option seller) :
  find_cheapest_from cfg my acc sellers =
  find_cheapest_from cfg my acc
    (List.filter (fun s => negb (py_eq (lot_id s) my)) sellers).
Proof.
  revert acc. induction sellers as [| s rest IH]; intros acc; [reflexivity |].
  cbn [find_cheapest_from List.filter].
  destruct (py_eq (lot_id s) my) eqn:Hself; cbn [negb]; [apply IH |].
  cbn [find_cheapest_from]. rewrite Hself.
  destruct (in_whitelist cfg s) as [[|] | e]; cbn [rbind]; auto.
  destruct acc as [c0 |]; auto.
  destruct (SFltb (price s) (price c0)); auto.
Qed.

Section LoopInvariant.

Variables (my : pyval) (wl : list pyval).
Variables (seen : list seller) (s : seller).
Hypothesis Hseen : Forall priced seen.
Hypothesis Hs : priced s.

Lemma cheapest_so_far_skip (acc : option seller) :
  eligible my wl s = false ->
  cheapest_so_far my wl seen acc -> cheapest_so_far my wl (seen ++ [s]) acc.
Proof.
  intros Hel. destruct acc as [c |]; cbn [cheapest_so_far].
  - intros (i & Hi & Hc & Hmin & Hfirst). exists i. repeat split; auto.
    + by apply lookup_app_l_Some.
    + intros e [He | He%list_elem_of_singleton]%elem_of_app Hee; [auto | congruence].
    + intros j e Hj He. apply (Hfirst j); auto.
      apply lookup_lt_Some in Hi.
      rewrite lookup_app_l in He; [assumption | lia].
  - intros H. apply Forall_app. split; auto.
Qed.

Lemma cheapest_so_far_first :
  eligible my wl s = true ->
  cheapest_so_far my wl seen None -> cheapest_so_far my wl (seen ++ [s]) (Some s).
Proof.
  cbn [cheapest_so_far]. intros Hel Hnone.
  exists (length seen). repeat split; auto.
  - by apply list_lookup_middle.
  - intros e [He | ->%list_elem_of_singleton]%elem_of_app Hee.
    + rewrite Forall_forall in Hnone. rewrite (Hnone e He) in Hee. discriminate.
    + by apply SFleb_refl.
  - intros j e Hj He Hee. rewrite lookup_app_l in He by assumption.
    apply list_elem_of_lookup_2 in He.
    rewrite Forall_forall in Hnone. rewrite (Hnone e He) in Hee. discriminate.
Qed.

Lemma cheapest_so_far_better (c : seller) :
  eligible my wl s = true -> SFltb (price s) (price c) = true ->
  cheapest_so_far my wl seen (Some c) -> cheapest_so_far my wl (seen ++ [s]) (Some s).
Proof.
  cbn [cheapest_so_far]. intros Hel Hlt (i & Hi & Hc & Hmin & Hfirst).
  assert (Hpc : priced c).
  { rewrite Forall_forall in Hseen. eapply Hseen, list_elem_of_lookup_2, Hi. }
  assert (Hall : forall e, e ∈ seen -> eligible my wl e = true ->
            SFltb (price s) (price e) = true).
  { intros e He Hee. rewrite Forall_forall in Hseen.
    apply SFltb_leb_trans with (y := price c); auto. by apply Hseen. }
  exists (length seen). repeat split; auto.
  - by apply list_lookup_middle.
  - intros e [He | ->%list_elem_of_singleton]%elem_of_app Hee.
    + rewrite Forall_forall in Hseen. apply SFltb_leb; auto. by apply Hseen.
    + by apply SFleb_refl.
  - intros j e Hj He Hee. rewrite lookup_app_l in He by assumption.
    apply Hall; auto. eapply list_elem_of_lookup_2, He.
Qed.

Lemma cheapest_so_far_keep (c : seller) :
  SFltb (price s) (price c) = false ->
  cheapest_so_far my wl seen (Some c) -> cheapest_so_far my wl (seen ++ [s]) (Some c).
Proof.
  cbn [cheapest_so_far]. intros Hge (i & Hi & Hc & Hmin & Hfirst).
  assert (Hpc : priced c).
  { rewrite Forall_forall in Hseen. eapply Hseen, list_elem_of_lookup_2, Hi. }
  exists i. repeat split; auto.
  - by apply lookup_app_l_Some.
  - intros e [He | ->%list_elem_of_singleton]%elem_of_app Hee; [auto |].
    by apply SFltb_false_leb.
  - intros j e Hj He. apply (Hfirst j); auto.
    apply lookup_lt_Some in Hi.
    rewrite lookup_app_l in He; [assumption | lia].
Qed.

End LoopInvariant.

Lemma find_cheapest_from_invariant (cfg : gmap string pyval) (my : pyval)
    (wl : list pyval) (rest seen : list seller) (acc : option seller) :
  cfg !! "whitelist" = Some (PList wl) ->
  Forall priced (seen ++ rest) ->
  cheapest_so_far my wl seen acc ->
  exists r, find_cheapest_from cfg my acc rest = Ok r /\
    cheapest_so_far my wl (seen ++ rest) r.
Proof.
  intros Hwl. revert seen acc.
  induction rest as [| s rest IH]; intros seen acc Hp Hinv.
  - exists acc. rewrite app_nil_r. auto.
  - replace (seen ++ s :: rest) with ((seen ++ [s]) ++ rest) in *
      by (rewrite <- app_assoc; reflexivity).
    assert (Hp' : Forall priced seen /\ priced s).
    { apply Forall_app in Hp as [Hp _]. apply Forall_app in Hp as [H1 H2].
      split; auto. by inversion H2. }
    destruct Hp' as [Hseen Hs].
    cbn [find_cheapest_from]. rewrite (in_whitelist_list cfg wl s Hwl). cbn [rbind].
    destruct (py_eq (lot_id s) my) eqn:Hself.
    { apply IH; auto. apply cheapest_so_far_skip; auto.
      unfold eligible. rewrite Hself. reflexivity. }
    destruct (whitelisted wl s) eqn:Hw.
    { apply IH; auto. apply cheapest_so_far_skip; auto.
      unfold eligible. rewrite Hself, Hw. reflexivity. }
    assert (Hel : eligible my wl s = true)
      by (unfold eligible; rewrite Hself, Hw; reflexivity).
    destruct acc as [c |].
    + destruct (SFltb (price s) (price c)) eqn:Hlt; apply IH; auto.
      * eapply cheapest_so_far_better; eauto.
      * eapply cheapest_so_far_keep; eauto.
    + apply IH; auto. apply cheapest_so_far_first; auto.
Qed.

(** ** Running the methods *)

Ltac unfold_monad :=
  unfold bind, try_except, lift, ret, call, get_self, set_config,
    set_funpay_account, getitem, outcome, final, trace in *.

(** Case analysis on the innermost scrutinee of the goal. *)
Ltac case_step :=
  match goal with
  | |- context [match ?x with _ => _ end] =>
      lazymatch x with
      | context [match _ with _ => _ end] => fail
      | negb ?b => destruct b eqn:?
      | _ => destruct x eqn:?
      end
  end.

Ltac case_steps := repeat (cbn [fst snd rbind negb app]; try case_step).

Lemma update_my_price_run (w : World) (new_price : pyval) (self : PriceDumper) :
  update_my_price w new_price self =
  match funpay_account self, config self !! "lot_id" with
  | None, _ => (Ok false, self, [])
  | Some _, None => (Ok false, self, [])
  | Some account, Some lot =>
      (match change_lot_price w account lot new_price with
       | Ok _ => Ok true
       | Raise _ => Ok false
       end, self, [EvChangeLotPrice lot new_price])
  end.
Proof.
  unfold update_my_price. unfold_monad. case_steps; reflexivity.
Qed.

Lemma send_telegram_notification_run (w : World) (text : message) (self : PriceDumper) :
  send_telegram_notification w text self =
  match bot self, config self !! "telegram_chat_id" with
  | None, _ => (Ok false, self, [])
  | Some _, None => (Ok false, self, [])
  | Some b, Some chat_id =>
      (match send_message w b chat_id text with
       | Ok _ => Ok true
       | Raise _ => Ok false
       end, self, [EvSendMessage chat_id text])
  end.
Proof.
  unfold send_telegram_notification. unfold_monad. case_steps; reflexivity.
Qed.

Lemma get_market_prices_run (w : World) (self : PriceDumper) :
  get_market_prices w self =
  match funpay_account self, config self !! "game_id", config self !! "server_id" with
  | Some account, Some game, Some server =>
      (match get_lots w account game server with
       | Ok all_lots =>
           match collect_sellers all_lots with
           | Ok sellers => Ok sellers
           | Raise _ => Ok []
           end
       | Raise _ => Ok []
       end, self, [EvGetLots game server])
  | _, _, _ => (Ok [], self, [])
  end.
Proof.
  unfold get_market_prices. unfold_monad. case_steps; reflexivity.
Qed.

Lemma login_to_funpay_run (w : World) (self : PriceDumper) :
  login_to_funpay w self =
  match config self !! "funpay_username" with
  | None => (Ok false, self, [])
  | Some user =>
      if py_truthy user then
        match config self !! "funpay_password" with
        | None => (Ok false, self, [])
        | Some pass =>
            if py_truthy pass then
              match account_new w user pass with
              | Ok _ => (Ok true, with_account self {| username := user; password := pass |},
                         [EvLogin user pass])
              | Raise _ => (Ok false, self, [EvLogin user pass])
              end
            else (Ok false, self, [])
        end
      else (Ok false, self, [])
  end.
Proof.
  unfold login_to_funpay. unfold_monad. case_steps; reflexivity.
Qed.

Lemma with_config_same (self : PriceDumper) : with_config self (config self) = self.
Proof. destruct self; reflexivity. Qed.

Lemma update_from_run (items : list (string * pyval)) (self : PriceDumper) :
  update_from items self = (Ok tt, with_config self (merged (config self) items), []).
Proof.
  revert self. induction items as [| [key value] rest IH]; intros self.
  - cbn. rewrite with_config_same. reflexivity.
  - cbn [update_from merged]. unfold bind at 1 2. unfold get_self at 1.
    destruct (config self !! key) eqn:Hk.
    + unfold set_config. rewrite IH. cbn. reflexivity.
    + unfold ret at 1. rewrite IH. reflexivity.
Qed.

Lemma merged_lookup (items : list (string * pyval)) (cfg : gmap string pyval) (k : string) :
  merged cfg items !! k =
  match cfg !! k with
  | None => None
  | Some old => Some (default old (item_value k items))
  end.
Proof.
  revert cfg. induction items as [| [key value] rest IH]; intros cfg.
  - cbn. destruct (cfg !! k); reflexivity.
  - cbn [merged item_value]. rewrite IH.
    destruct (String.eqb_spec key k) as [-> | Hne].
    + destruct (cfg !! k) eqn:Hk.
      * rewrite lookup_insert_eq. destruct (item_value k rest); reflexivity.
      * rewrite Hk. reflexivity.
    + destruct (cfg !! key) eqn:Hkey.
      * rewrite lookup_insert_ne by assumption.
        destruct (cfg !! k); [| reflexivity].
        destruct (item_value k rest); reflexivity.
      * destruct (cfg !! k); [| reflexivity].
        destruct (item_value k rest); reflexivity.
Qed.

Lemma load_config_file_run (w : World) (config_path : string) (self : PriceDumper) :
  load_config_file w config_path self =
  match json_load w config_path with
  | Ok (PDict items) =>
      let cfg := merged (config self) items in
      (match validate cfg required_fields with
       | Ok ok => Ok ok
       | Raise _ => Ok false
       end, with_config self cfg, [])
  | _ => (Ok false, self, [])
  end.
Proof.
  unfold load_config_file, bind, try_except, lift, get_self.
  destruct (json_load w config_path) as [[a | l | items] | e];
    cbn [py_items]; try reflexivity.
  rewrite update_from_run. cbn [config with_config].
  generalize (validate (merged (config self) items) required_fields).
  intros [ok | e]; reflexivity.
Qed.

Lemma check_and_update_price_tail (w : World) :
  check_and_update_price w =
  (do self <- get_self;
   do logged_in <- match funpay_account self with
                   | Some _ => ret true
                   | None => login_to_funpay w
                   end;
   if negb logged_in then ret tt
   else
     do sellers <- get_market_prices w;
     match sellers with
     | [] => ret tt
     | _ :: _ =>
         do self <- get_self;
         do my_listing <- lift (find_my_listing (config self) sellers);
         match my_listing with
         | None => ret tt
         | Some my_listing =>
             do cheapest <- lift (find_cheapest_competitor (config self) sellers);
             match cheapest with
             | None => ret tt
             | Some cheapest_competitor => undercut w my_listing cheapest_competitor
             end
         end
     end).
Proof. reflexivity. Qed.

Lemma undercut_run (w : World) (me c : seller) (self : PriceDumper) :
  undercut w me c self =
  if SFleb (price me) (price c) then (Ok tt, self, [])
  else
    match config self !! "price_decrease_amount" with
    | None => (Raise (KeyError "price_decrease_amount"), self, [])
    | Some decrease =>
        match float_sub_val (price c) decrease with
        | Raise e => (Raise e, self, [])
        | Ok lowered =>
            match config self !! "min_price" with
            | None => (Raise (KeyError "min_price"), self, [])
            | Some min_price =>
                match float_lt_val lowered min_price with
                | Raise e => (Raise e, self, [])
                | Ok below =>
                    let new_price := if below then min_price else PFloat lowered in
                    match update_my_price w new_price self with
                    | (Ok true, _, t) =>
                        (Ok tt, self,
                         t ++ trace (send_telegram_notification w
                                       (PriceLowered (price me) new_price
                                          (seller_name c) (price c)) self))
                    | (_, _, t) => (Ok tt, self, t)
                    end
                end
            end
        end
    end.
Proof.
  unfold undercut, update_my_price, send_telegram_notification. unfold_monad.
  case_steps; try reflexivity; try congruence.
Qed.

Lemma find_my_listing_nil (cfg : gmap string pyval) (me : seller) :
  find_my_listing cfg [] <> Ok (Some me).
Proof.
  unfold find_my_listing, getitem. destruct (cfg !! "lot_id"); cbn; congruence.
Qed.

Lemma logged_in_config (w : World) (self : PriceDumper) :
  config (logged_in w self) = config self /\ bot (logged_in w self) = bot self.
Proof.
  unfold logged_in. destruct (funpay_account self); [auto |].
  rewrite login_to_funpay_run. unfold final. case_steps; auto.
Qed.

Lemma login_trace_quiet (w : World) (self : PriceDumper) :
  price_updates (login_trace w self) = [] /\ notifications (login_trace w self) = [].
Proof.
  unfold login_trace. destruct (funpay_account self); [auto |].
  rewrite login_to_funpay_run. unfold trace. case_steps; auto.
Qed.

(** A cycle whose snapshot holds both the own listing and a competitor
    goes on to lines 231-252. *)
Lemma check_and_update_price_reaches (w : World) (self : PriceDumper)
    (sellers : list seller) (t0 : list event) (me c : seller) :
  get_market_prices w (logged_in w self) = (Ok sellers, logged_in w self, t0) ->
  find_my_listing (config self) sellers = Ok (Some me) ->
  find_cheapest_competitor (config self) sellers = Ok (Some c) ->
  check_and_update_price w self =
  match undercut w me c (logged_in w self) with
  | (r, self', t) => (r, self', login_trace w self ++ t0 ++ t)
  end.
Proof.
  intros Hgmp Hme Hc.
  assert (Hne : sellers <> []) by (intros ->; exact (find_my_listing_nil _ _ Hme)).
  assert (Hrest : forall self1 : PriceDumper,
    config self1 = config self ->
    get_market_prices w self1 = (Ok sellers, self1, t0) ->
    (do sellers <- get_market_prices w;
     match sellers with
     | [] => ret tt
     | _ :: _ =>
         do self <- get_self;
         do my_listing <- lift (find_my_listing (config self) sellers);
         match my_listing with
         | None => ret tt
         | Some my_listing =>
             do cheapest <- lift (find_cheapest_competitor (config self) sellers);
             match cheapest with
             | None => ret tt
             | Some cheapest_competitor => undercut w my_listing cheapest_competitor
             end
         end
     end) self1 =
    match undercut w me c self1 with
    | (r, self', t) => (r, self', t0 ++ t)
    end).
  { intros self1 Hcfg Hgmp1. unfold bind, get_self, lift. rewrite Hgmp1.
    destruct sellers as [| s rest]; [congruence |].
    rewrite Hcfg, Hme, Hc.
    destruct (undercut w me c self1) as [[r self'] t]. reflexivity. }
  assert (Hnone : funpay_account (logged_in w self) <> None).
  { intros Hacc. rewrite get_market_prices_run, Hacc in Hgmp. congruence. }
  rewrite check_and_update_price_tail. revert Hgmp Hnone.
  unfold logged_in, login_trace. unfold bind at 1 2. unfold get_self at 1.
  destruct (funpay_account self) as [account |] eqn:Hacc.
  - intros Hgmp _. unfold ret at 1. cbn [negb].
    rewrite (Hrest self eq_refl Hgmp).
    destruct (undercut w me c self) as [[r self'] t]. reflexivity.
  - rewrite login_to_funpay_run. unfold final, trace.
    destruct (config self !! "funpay_username") as [user |];
      [| cbn [fst snd]; congruence].
    destruct (py_truthy user); [| cbn [fst snd]; congruence].
    destruct (config self !! "funpay_password") as [pass |];
      [| cbn [fst snd]; congruence].
    destruct (py_truthy pass); [| cbn [fst snd]; congruence].
    destruct (account_new w user pass) as [[] | e]; cbn [negb fst snd];
      [| congruence].
    intros Hgmp _.
    rewrite (Hrest (with_account self {| username := user; password := pass |})
               eq_refl Hgmp).
    destruct (undercut w me c _) as [[r self'] t]. reflexivity.
Qed.

Lemma price_updates_app (t1 t2 : list event) :
  price_updates (t1 ++ t2) = price_updates t1 ++ price_updates t2.
Proof.
  induction t1 as [| ev t1 IH]; [reflexivity |].
  destruct ev; cbn; rewrite IH; reflexivity.
Qed.

Lemma notifications_app (t1 t2 : list event) :
  notifications (t1 ++ t2) = notifications t1 ++ notifications t2.
Proof.
  induction t1 as [| ev t1 IH]; [reflexivity |].
  destruct ev; cbn; rewrite IH; reflexivity.
Qed.

Lemma get_market_prices_quiet (w : World) (self : PriceDumper) :
  price_updates (trace (get_market_prices w self)) = [] /\
  notifications (trace (get_market_prices w self)) = [].
Proof.
  rewrite get_market_prices_run. unfold trace. case_steps; auto.
Qed.

(** ** Properties of [find_my_listing] and [find_cheapest_competitor] *)

(** C6. [find_my_listing] returns an entry of the collection whose lot id
    equals the configured [lot_id]; it finds one whenever one is present,
    and it returns [None] exactly when no entry has that lot id. *)
Theorem find_my_listing_correct (cfg : gmap string pyval) (sellers : list seller)
    (my : pyval) :
  cfg !! "lot_id" = Some my ->
  (forall s, find_my_listing cfg sellers = Ok (Some s) ->
     s ∈ sellers /\ py_eq (lot_id s) my = true) /\
  (Exists (fun s => py_eq (lot_id s) my = true) sellers ->
     exists s, find_my_listing cfg sellers = Ok (Some s)) /\
  (find_my_listing cfg sellers = Ok None <->
     Forall (fun s => py_eq (lot_id s) my = false) sellers).
Proof.
  intros Hlot. unfold find_my_listing, getitem. rewrite Hlot. cbn [rbind].
  split; [| split].
  - intros s [= H]. apply find_my_listing_from_Some in H as (i & Hi & Hs & _).
    split; [eapply list_elem_of_lookup_2, Hi | exact Hs].
  - intros Hex. destruct (find_my_listing_from my sellers) as [s |] eqn:H; [eauto |].
    apply find_my_listing_from_None in H.
    apply Exists_exists in Hex as (s & Hin & Hs).
    rewrite Forall_forall in H. rewrite (H s Hin) in Hs. discriminate.
  - rewrite <- find_my_listing_from_None. split; congruence.
Qed.

Lemma find_my_listing_correct_witness :
  (forall s, find_my_listing Sample.cfg Sample.snapshot = Ok (Some s) ->
     s ∈ Sample.snapshot /\ py_eq (lot_id s) (PStr "L1") = true) /\
  (Exists (fun s => py_eq (lot_id s) (PStr "L1") = true) Sample.snapshot ->
     exists s, find_my_listing Sample.cfg Sample.snapshot = Ok (Some s)) /\
  (find_my_listing Sample.cfg Sample.snapshot = Ok None <->
     Forall (fun s => py_eq (lot_id s) (PStr "L1") = false) Sample.snapshot).
Proof.
  apply (find_my_listing_correct Sample.cfg Sample.snapshot (PStr "L1")).
  vm_compute. reflexivity.
Defined.

Example find_my_listing_sample :
  find_my_listing Sample.cfg Sample.snapshot = Ok (Some Sample.me).
Proof. vm_compute. reflexivity. Qed.

Example find_my_listing_absent :
  find_my_listing Sample.cfg [Sample.seller_A; Sample.seller_B] = Ok None.
Proof. vm_compute. reflexivity. Qed.

(** C2. What [find_cheapest_competitor] returns is an entry of the
    collection whose lot id differs from the configured [lot_id] and whose
    seller id and seller name are both outside the whitelist. *)
Theorem cheapest_competitor_not_self_not_whitelisted (cfg : gmap string pyval)
    (sellers : list seller) (c : seller) :
  find_cheapest_competitor cfg sellers = Ok (Some c) ->
  c ∈ sellers /\
  exists my wl,
    cfg !! "lot_id" = Some my /\ cfg !! "whitelist" = Some wl /\
    py_eq (lot_id c) my = false /\
    py_in (seller_id c) wl = Ok false /\
    py_in (seller_name c) wl = Ok false.
Proof.
  unfold find_cheapest_competitor, getitem.
  destruct (cfg !! "lot_id") as [my |] eqn:Hlot; cbn [rbind]; [| discriminate].
  intros H. apply find_cheapest_from_Some in H as [H | (Hin & Hself & Hwl)];
    [discriminate |].
  apply in_whitelist_false in Hwl as (wl & Hwl & Hid & Hname).
  split; [assumption |]. exists my, wl. auto.
Qed.

Lemma cheapest_competitor_not_self_not_whitelisted_witness :
  Sample.seller_A ∈ Sample.snapshot /\
  exists my wl,
    Sample.cfg !! "lot_id" = Some my /\ Sample.cfg !! "whitelist" = Some wl /\
    py_eq (lot_id Sample.seller_A) my = false /\
    py_in (seller_id Sample.seller_A) wl = Ok false /\
    py_in (seller_name Sample.seller_A) wl = Ok false.
Proof.
  apply (cheapest_competitor_not_self_not_whitelisted Sample.cfg Sample.snapshot).
  vm_compute. reflexivity.
Defined.

(** C3. With a list as whitelist and prices that are numbers,
    [find_cheapest_competitor] returns without raising; it returns [None]
    exactly when no entry is eligible (neither self nor whitelisted);
    otherwise it returns an eligible entry whose price is at most the price
    of every eligible entry, and every eligible entry before it in the
    collection is strictly dearer, so that among the entries tying on the
    least price it is the first. *)
Theorem cheapest_competitor_minimal_first (cfg : gmap string pyval)
    (sellers : list seller) (my : pyval) (wl : list pyval) :
  cfg !! "lot_id" = Some my ->
  cfg !! "whitelist" = Some (PList wl) ->
  Forall priced sellers ->
  exists r, find_cheapest_competitor cfg sellers = Ok r /\
    (r = None <-> Forall (fun s => eligible my wl s = false) sellers) /\
    (forall c, r = Some c ->
       exists i : nat, sellers !! i = Some c /\ eligible my wl c = true /\
         (forall e, e ∈ sellers -> eligible my wl e = true ->
            SFleb (price c) (price e) = true) /\
         (forall (j : nat) e, (j < i)%nat -> sellers !! j = Some e ->
            eligible my wl e = true -> SFltb (price c) (price e) = true)).
Proof.
  intros Hlot Hwl Hp.
  unfold find_cheapest_competitor, getitem. rewrite Hlot. cbn [rbind].
  destruct (find_cheapest_from_invariant cfg my wl sellers [] None Hwl Hp)
    as (r & Hr & Hinv); [constructor |].
  cbn [app] in Hinv. exists r. split; [exact Hr |]. split.
  - split.
    + intros ->. exact Hinv.
    + intros Hall. destruct r as [c |]; [| reflexivity].
      destruct Hinv as (i & Hi & Hc & _).
      apply list_elem_of_lookup_2 in Hi.
      rewrite Forall_forall in Hall. rewrite (Hall c Hi) in Hc. discriminate.
  - intros c ->. exact Hinv.
Qed.

Lemma cheapest_competitor_minimal_first_witness :
  exists r, find_cheapest_competitor Sample.cfg
              (Sample.snapshot ++ [Sample.seller_C]) = Ok r /\
    (r = None <->
       Forall (fun s => eligible (PStr "L1") [PStr "B"] s = false)
         (Sample.snapshot ++ [Sample.seller_C])) /\
    (forall c, r = Some c ->
       exists i : nat, (Sample.snapshot ++ [Sample.seller_C]) !! i = Some c /\
         eligible (PStr "L1") [PStr "B"] c = true /\
         (forall e, e ∈ Sample.snapshot ++ [Sample.seller_C] ->
            eligible (PStr "L1") [PStr "B"] e = true ->
            SFleb (price c) (price e) = true) /\
         (forall (j : nat) e, (j < i)%nat ->
            (Sample.snapshot ++ [Sample.seller_C]) !! j = Some e ->
            eligible (PStr "L1") [PStr "B"] e = true ->
            SFltb (price c) (price e) = true)).
Proof.
  apply (cheapest_competitor_minimal_first Sample.cfg
           (Sample.snapshot ++ [Sample.seller_C]) (PStr "L1") [PStr "B"]).
  - vm_compute. reflexivity.
  - vm_compute. reflexivity.
  - repeat constructor.
Defined.

(** A at 90 and C at 90 tie; A comes first. B is cheaper but whitelisted. *)
Example find_cheapest_competitor_tie :
  find_cheapest_competitor Sample.cfg (Sample.snapshot ++ [Sample.seller_C])
  = Ok (Some Sample.seller_A).
Proof. vm_compute. reflexivity. Qed.

(** Why the prices have to be numbers: nothing compares below a NaN, so a
    NaN met first is kept. *)
Example find_cheapest_competitor_nan :
  find_cheapest_competitor Sample.cfg
    [Seller (AInt 5) (AStr "D") S754_nan (AStr "L5"); Sample.seller_A]
  = Ok (Some (Seller (AInt 5) (AStr "D") S754_nan (AStr "L5"))).
Proof. vm_compute. reflexivity. Qed.

Example find_cheapest_competitor_all_whitelisted :
  find_cheapest_competitor Sample.cfg [Sample.me; Sample.seller_B] = Ok None.
Proof. vm_compute. reflexivity. Qed.

(** C10. With several entries carrying the configured lot id,
    [find_my_listing] returns the first of them in input order, and
    [find_cheapest_competitor] leaves all of them out: its result is the
    result on the collection without them, and never one of them. *)
Theorem duplicate_self_listings (cfg : gmap string pyval) (sellers : list seller)
    (my : pyval) :
  cfg !! "lot_id" = Some my ->
  (forall s, find_my_listing cfg sellers = Ok (Some s) ->
     exists i : nat, sellers !! i = Some s /\ py_eq (lot_id s) my = true /\
       forall (j : nat) e, (j < i)%nat -> sellers !! j = Some e ->
         py_eq (lot_id e) my = false) /\
  (Exists (fun s => py_eq (lot_id s) my = true) sellers ->
     exists s, find_my_listing cfg sellers = Ok (Some s)) /\
  find_cheapest_competitor cfg sellers =
    find_cheapest_competitor cfg
      (List.filter (fun s => negb (py_eq (lot_id s) my)) sellers) /\
  (forall c, find_cheapest_competitor cfg sellers = Ok (Some c) ->
     py_eq (lot_id c) my = false).
Proof.
  intros Hlot. unfold find_my_listing, find_cheapest_competitor, getitem.
  rewrite Hlot. cbn [rbind]. repeat split.
  - intros s [= H]. by apply find_my_listing_from_Some.
  - intros Hex. destruct (find_my_listing_from my sellers) as [s |] eqn:H; [eauto |].
    apply find_my_listing_from_None in H.
    apply Exists_exists in Hex as (s & Hin & Hs).
    rewrite Forall_forall in H. rewrite (H s Hin) in Hs. discriminate.
  - apply find_cheapest_from_filter.
  - intros c H. apply find_cheapest_from_Some in H as [H | (_ & H & _)];
      [discriminate | exact H].
Qed.

Lemma duplicate_self_listings_witness :
  find_cheapest_competitor Sample.cfg
    [Sample.seller_A; Sample.me; Sample.me_again; Sample.seller_C] =
  find_cheapest_competitor Sample.cfg
    (List.filter (fun s => negb (py_eq (lot_id s) (PStr "L1")))
       [Sample.seller_A; Sample.me; Sample.me_again; Sample.seller_C]).
Proof.
  apply (duplicate_self_listings Sample.cfg
           [Sample.seller_A; Sample.me; Sample.me_again; Sample.seller_C] (PStr "L1")).
  vm_compute. reflexivity.
Defined.

(** The own lot listed twice, at 100 and at 80: the first is "mine", and the
    second, though cheapest of all, is not a competitor. *)
Example find_my_listing_duplicate :
  find_my_listing Sample.cfg
    [Sample.seller_A; Sample.me; Sample.me_again; Sample.seller_C]
  = Ok (Some Sample.me).
Proof. vm_compute. reflexivity. Qed.

Example find_cheapest_competitor_duplicate :
  find_cheapest_competitor Sample.cfg
    [Sample.seller_A; Sample.me; Sample.me_again; Sample.seller_C]
  = Ok (Some Sample.seller_A).
Proof. vm_compute. reflexivity. Qed.

(** ** The cycle *)

(** What a cycle that got a snapshot with the own listing in it knows. *)
Lemma snapshot_facts (w : World) (self : PriceDumper) (sellers : list seller)
    (t0 : list event) (me : seller) :
  get_market_prices w (logged_in w self) = (Ok sellers, logged_in w self, t0) ->
  find_my_listing (config self) sellers = Ok (Some me) ->
  exists account lot,
    funpay_account (logged_in w self) = Some account /\
    config self !! "lot_id" = Some lot /\
    price_updates t0 = [] /\ notifications t0 = [].
Proof.
  intros Hgmp Hme.
  destruct (get_market_prices_quiet w (logged_in w self)) as [Hq1 Hq2].
  rewrite Hgmp in Hq1, Hq2. cbn in Hq1, Hq2.
  destruct (funpay_account (logged_in w self)) as [account |] eqn:Hacc.
  - unfold find_my_listing, getitem in Hme.
    destruct (config self !! "lot_id") as [lot |] eqn:Hlot; [| discriminate].
    exists account, lot. auto.
  - rewrite get_market_prices_run, Hacc in Hgmp.
    injection Hgmp as <- _. destruct (find_my_listing_nil _ _ Hme).
Qed.

(** C1. In a cycle that found the own listing and a cheapest competitor,
    the decision taken is the one [spec_decide] gives for the two prices,
    the configured decrement and the configured floor: no price update
    exactly when [my_price <= competitor_price], and otherwise one update,
    to the competitor's price less the decrement, or to the floor when that
    difference is below the floor. *)
Theorem cycle_decision (w : World) (self : PriceDumper) (sellers : list seller)
    (t0 : list event) (me c : seller) (decrease min_price : pyval) (d : Decision) :
  get_market_prices w (logged_in w self) = (Ok sellers, logged_in w self, t0) ->
  find_my_listing (config self) sellers = Ok (Some me) ->
  find_cheapest_competitor (config self) sellers = Ok (Some c) ->
  config self !! "price_decrease_amount" = Some decrease ->
  config self !! "min_price" = Some min_price ->
  spec_decide (price me) (price c) decrease min_price = Ok d ->
  outcome (check_and_update_price w self) = Ok tt /\
  decision_of (trace (check_and_update_price w self)) = d /\
  (d = NoAction <-> SFleb (price me) (price c) = true).
Proof.
  intros Hgmp Hme Hc Hdec Hmin Hd.
  destruct (snapshot_facts w self sellers t0 me Hgmp Hme)
    as (account & lot & Hacc & Hlot & Hq & _).
  destruct (login_trace_quiet w self) as [Hl _].
  destruct (logged_in_config w self) as [Hcfg _].
  rewrite (check_and_update_price_reaches w self sellers t0 me c Hgmp Hme Hc).
  rewrite undercut_run, Hcfg. unfold spec_decide in Hd.
  destruct (SFleb (price me) (price c)) eqn:Hle.
  - injection Hd as <-. unfold outcome, trace, decision_of. cbn [fst snd].
    rewrite !price_updates_app, Hl, Hq. repeat split; auto.
  - rewrite Hdec, Hmin.
    destruct (float_sub_val (price c) decrease) as [lowered | e];
      cbn [rbind] in Hd; [| discriminate].
    destruct (float_lt_val lowered min_price) as [below | e];
      cbn [rbind] in Hd; [| discriminate].
    injection Hd as <-. cbn zeta.
    rewrite update_my_price_run, Hacc, Hcfg, Hlot.
    unfold outcome, trace, decision_of.
    destruct (change_lot_price w account lot _) as [u | e]; cbn [fst snd];
      rewrite !price_updates_app, Hl, Hq; cbn; (split; [reflexivity |]);
      (split; [reflexivity |]); split; discriminate.
Qed.

Lemma cycle_decision_witness :
  outcome (check_and_update_price
             (Market.world (float_of_Z 10) (float_of_Z 8) (Ok tt))
             (Market.dumper (PInt 1) (PFloat (dyadic 15 (-1))))) = Ok tt /\
  decision_of (trace (check_and_update_price
                        (Market.world (float_of_Z 10) (float_of_Z 8) (Ok tt))
                        (Market.dumper (PInt 1) (PFloat (dyadic 15 (-1))))))
  = SetPrice (PFloat (dyadic 15 (-1))) /\
  (SetPrice (PFloat (dyadic 15 (-1))) = NoAction <->
   SFleb (float_of_Z 10) (float_of_Z 8) = true).
Proof.
  apply (cycle_decision
           (Market.world (float_of_Z 10) (float_of_Z 8) (Ok tt))
           (Market.dumper (PInt 1) (PFloat (dyadic 15 (-1))))
           [Seller (AInt 1) (AStr "me") (float_of_Z 10) (AStr "L1");
            Seller (AInt 2) (AStr "A") (float_of_Z 8) (AStr "L2")]
           [EvGetLots (PStr "game") (PStr "server")]
           (Seller (AInt 1) (AStr "me") (float_of_Z 10) (AStr "L1"))
           (Seller (AInt 2) (AStr "A") (float_of_Z 8) (AStr "L2"))
           (PInt 1) (PFloat (dyadic 15 (-1))));
    vm_compute; reflexivity.
Defined.

(** The four examples of the specification, on [spec_decide] and on a cycle
    of the program. *)
Example decide_10_8_1_0 :
  spec_decide (float_of_Z 10) (float_of_Z 8) (PInt 1) (PInt 0)
  = Ok (SetPrice (PFloat (float_of_Z 7))) /\
  decision_of (trace (check_and_update_price
                        (Market.world (float_of_Z 10) (float_of_Z 8) (Ok tt))
                        (Market.dumper (PInt 1) (PInt 0))))
  = SetPrice (PFloat (float_of_Z 7)).
Proof. split; vm_compute; reflexivity. Qed.

Example decide_10_8_1_7_5 :
  spec_decide (float_of_Z 10) (float_of_Z 8) (PInt 1) (PFloat (dyadic 15 (-1)))
  = Ok (SetPrice (PFloat (dyadic 15 (-1)))) /\
  decision_of (trace (check_and_update_price
                        (Market.world (float_of_Z 10) (float_of_Z 8) (Ok tt))
                        (Market.dumper (PInt 1) (PFloat (dyadic 15 (-1))))))
  = SetPrice (PFloat (dyadic 15 (-1))).
Proof. split; vm_compute; reflexivity. Qed.

Example decide_5_8_1_0 :
  spec_decide (float_of_Z 5) (float_of_Z 8) (PInt 1) (PInt 0) = Ok NoAction /\
  decision_of (trace (check_and_update_price
                        (Market.world (float_of_Z 5) (float_of_Z 8) (Ok tt))
                        (Market.dumper (PInt 1) (PInt 0))))
  = NoAction.
Proof. split; vm_compute; reflexivity. Qed.

Example decide_8_8_1_0 :
  spec_decide (float_of_Z 8) (float_of_Z 8) (PInt 1) (PInt 0) = Ok NoAction /\
  decision_of (trace (check_and_update_price
                        (Market.world (float_of_Z 8) (float_of_Z 8) (Ok tt))
                        (Market.dumper (PInt 1) (PInt 0))))
  = NoAction.
Proof. split; vm_compute; reflexivity. Qed.

(** A decrement that is not a number: line 236 raises, and the cycle with
    it. *)
Example decrement_not_a_number :
  spec_decide (float_of_Z 10) (float_of_Z 8) (PStr "1") (PInt 0) = Raise TypeError /\
  check_and_update_price
    (Market.world (float_of_Z 10) (float_of_Z 8) (Ok tt))
    (Market.dumper (PStr "1") (PInt 0)) =
  (Raise TypeError, Market.dumper (PStr "1") (PInt 0),
   [EvGetLots (PStr "game") (PStr "server")]).
Proof. split; vm_compute; reflexivity. Qed.

(** On floats the arithmetic of [spec_decide] never raises. *)
Lemma spec_decide_floats (my_price competitor_price decrease min_price : pyfloat) :
  spec_decide my_price competitor_price (PFloat decrease) (PFloat min_price) =
  Ok (if SFleb my_price competitor_price then NoAction
      else SetPrice (PFloat (if SFltb (fsub competitor_price decrease) min_price
                             then min_price
                             else fsub competitor_price decrease))).
Proof.
  unfold spec_decide. cbn.
  destruct (SFleb my_price competitor_price); [reflexivity |].
  destruct (SFltb (fsub competitor_price decrease) min_price); reflexivity.
Qed.

(** C5. Once the own price is above the cheapest competitor's, the cycle
    calls the marketplace to set the price to the clamped value, whatever
    the floor is: the new price is compared with the floor only, never with
    the own price or the competitor's, so a floor at or above the
    competitor's price (or the own price) is sent as it is. *)
Theorem floor_above_competitor_still_updates (w : World) (self : PriceDumper)
    (sellers : list seller) (t0 : list event) (me c : seller)
    (decrease min_price : pyval) (lowered : pyfloat) (below : bool) :
  get_market_prices w (logged_in w self) = (Ok sellers, logged_in w self, t0) ->
  find_my_listing (config self) sellers = Ok (Some me) ->
  find_cheapest_competitor (config self) sellers = Ok (Some c) ->
  config self !! "price_decrease_amount" = Some decrease ->
  config self !! "min_price" = Some min_price ->
  SFleb (price me) (price c) = false ->
  float_sub_val (price c) decrease = Ok lowered ->
  float_lt_val lowered min_price = Ok below ->
  exists lot t1,
    config self !! "lot_id" = Some lot /\
    outcome (check_and_update_price w self) = Ok tt /\
    trace (check_and_update_price w self) =
      login_trace w self ++ t0 ++
      EvChangeLotPrice lot (if below then min_price else PFloat lowered) :: t1.
Proof.
  intros Hgmp Hme Hc Hdec Hmin Hle Hsub Hlt.
  destruct (snapshot_facts w self sellers t0 me Hgmp Hme)
    as (account & lot & Hacc & Hlot & _ & _).
  destruct (logged_in_config w self) as [Hcfg _].
  rewrite (check_and_update_price_reaches w self sellers t0 me c Hgmp Hme Hc).
  rewrite undercut_run, Hcfg, Hle, Hdec, Hsub, Hmin, Hlt. cbn zeta.
  rewrite update_my_price_run, Hacc, Hcfg, Hlot. exists lot.
  unfold outcome, trace.
  destruct (change_lot_price w account lot _) as [u | e]; cbn [fst snd];
    eexists; repeat split; reflexivity.
Qed.

(** Own price 10, competitor at 8, floor 12: the price is set to 12. *)
Lemma floor_above_competitor_still_updates_witness :
  exists lot t1,
    config (Market.dumper (PInt 1) (PInt 12)) !! "lot_id" = Some lot /\
    outcome (check_and_update_price
               (Market.world (float_of_Z 10) (float_of_Z 8) (Ok tt))
               (Market.dumper (PInt 1) (PInt 12))) = Ok tt /\
    trace (check_and_update_price
             (Market.world (float_of_Z 10) (float_of_Z 8) (Ok tt))
             (Market.dumper (PInt 1) (PInt 12))) =
      login_trace (Market.world (float_of_Z 10) (float_of_Z 8) (Ok tt))
        (Market.dumper (PInt 1) (PInt 12)) ++
      [EvGetLots (PStr "game") (PStr "server")] ++
      EvChangeLotPrice lot (if true then PInt 12 else PFloat (float_of_Z 7)) :: t1.
Proof.
  apply (floor_above_competitor_still_updates
           (Market.world (float_of_Z 10) (float_of_Z 8) (Ok tt))
           (Market.dumper (PInt 1) (PInt 12))
           [Seller (AInt 1) (AStr "me") (float_of_Z 10) (AStr "L1");
            Seller (AInt 2) (AStr "A") (float_of_Z 8) (AStr "L2")]
           [EvGetLots (PStr "game") (PStr "server")]
           (Seller (AInt 1) (AStr "me") (float_of_Z 10) (AStr "L1"))
           (Seller (AInt 2) (AStr "A") (float_of_Z 8) (AStr "L2"))
           (PInt 1) (PInt 12) (float_of_Z 7) true);
    vm_compute; reflexivity.
Defined.

(** The same cycle when the session has to be opened first. *)
Example login_on_demand_then_update :
  check_and_update_price
    (Market.world (float_of_Z 10) (float_of_Z 8) (Ok tt))
    (Market.fresh (PInt 1) (PInt 12)) =
  (Ok tt, Market.dumper (PInt 1) (PInt 12),
   [EvLogin (PStr "user") (PStr "secret");
    EvGetLots (PStr "game") (PStr "server");
    EvChangeLotPrice (PStr "L1") (PInt 12);
    EvSendMessage (PInt 42)
      (PriceLowered (float_of_Z 10) (PInt 12) (AStr "A") (float_of_Z 8))]).
Proof. vm_compute. reflexivity. Qed.

Example floor_above_own_price :
  trace (check_and_update_price
           (Market.world (float_of_Z 10) (float_of_Z 8) (Ok tt))
           (Market.dumper (PInt 1) (PInt 12))) =
  [EvGetLots (PStr "game") (PStr "server");
   EvChangeLotPrice (PStr "L1") (PInt 12);
   EvSendMessage (PInt 42)
     (PriceLowered (float_of_Z 10) (PInt 12) (AStr "A") (float_of_Z 8))].
Proof. vm_compute. reflexivity. Qed.

(** The calls of lines 231-252: none, or one price update, followed by one
    notification only if the update went through. *)
Lemma undercut_trace (w : World) (me c : seller) (self : PriceDumper) :
  final (undercut w me c self) = self /\
  (trace (undercut w me c self) = [] \/
   exists account lot p,
     funpay_account self = Some account /\
     (trace (undercut w me c self) = [EvChangeLotPrice lot p] \/
      (change_lot_price w account lot p = Ok tt /\
       exists chat text,
         trace (undercut w me c self) =
         [EvChangeLotPrice lot p; EvSendMessage chat text]))).
Proof.
  rewrite undercut_run. unfold final, trace.
  destruct (SFleb (price me) (price c)); [auto |].
  destruct (config self !! "price_decrease_amount") as [decrease |]; [| auto].
  destruct (float_sub_val (price c) decrease) as [lowered | e]; [| auto].
  destruct (config self !! "min_price") as [min_price |]; [| auto].
  destruct (float_lt_val lowered min_price) as [below | e]; [| auto].
  cbn zeta. rewrite update_my_price_run, send_telegram_notification_run.
  destruct (funpay_account self) as [account |] eqn:Hacc; [| auto].
  destruct (config self !! "lot_id") as [lot |]; [| auto].
  destruct (change_lot_price w account lot _) as [[] | e] eqn:Hupdate;
    cbn [fst snd]; (split; [reflexivity |]); right;
    exists account, lot, (if below then min_price else PFloat lowered);
    (split; [reflexivity |]); [| auto].
  destruct (bot self) as [b |]; [| rewrite app_nil_r; auto].
  destruct (config self !! "telegram_chat_id") as [chat |];
    [| rewrite app_nil_r; auto].
  right. split; [exact Hupdate |]. cbn. eauto.
Qed.

Lemma get_market_prices_total (w : World) (self : PriceDumper) :
  exists sellers t0,
    get_market_prices w self = (Ok sellers, self, t0) /\
    price_updates t0 = [] /\ notifications t0 = [].
Proof.
  rewrite get_market_prices_run. case_steps; eauto.
Qed.

(** Every cycle is a login on demand and a snapshot query, then either
    nothing more or lines 231-252. *)
Lemma cycle_shape (w : World) (self : PriceDumper) :
  exists pre r self' t,
    check_and_update_price w self = (r, self', pre ++ t) /\
    price_updates pre = [] /\ notifications pre = [] /\
    ((t = [] /\ self' = logged_in w self) \/
     (exists me c, undercut w me c (logged_in w self) = (r, self', t))).
Proof.
  assert (Hrest : forall self1 : PriceDumper,
    exists pre r self' t,
      (do sellers <- get_market_prices w;
       match sellers with
       | [] => ret tt
       | _ :: _ =>
           do self <- get_self;
           do my_listing <- lift (find_my_listing (config self) sellers);
           match my_listing with
           | None => ret tt
           | Some my_listing =>
               do cheapest <- lift (find_cheapest_competitor (config self) sellers);
               match cheapest with
               | None => ret tt
               | Some cheapest_competitor => undercut w my_listing cheapest_competitor
               end
           end
       end) self1 = (r, self', pre ++ t) /\
      price_updates pre = [] /\ notifications pre = [] /\
      ((t = [] /\ self' = self1) \/
       (exists me c, undercut w me c self1 = (r, self', t)))).
  { intros self1.
    destruct (get_market_prices_total w self1) as (sellers & t0 & Hgmp & Hq1 & Hq2).
    unfold bind at 1. rewrite Hgmp.
    destruct sellers as [| s rest].
    { exists t0, (Ok tt), self1, []. cbn. auto 10. }
    unfold bind, get_self, lift, ret.
    destruct (find_my_listing (config self1) (s :: rest)) as [[me |] | e].
    - destruct (find_cheapest_competitor (config self1) (s :: rest)) as [[c |] | e].
      + destruct (undercut w me c self1) as [[r self'] t] eqn:Hu.
        exists t0, r, self', t. cbn. eauto 10.
      + exists t0, (Ok tt), self1, []. cbn. auto 10.
      + exists t0, (Raise e), self1, []. cbn. auto 10.
    - exists t0, (Ok tt), self1, []. cbn. auto 10.
    - exists t0, (Raise e), self1, []. cbn. auto 10. }
  rewrite check_and_update_price_tail. unfold logged_in.
  unfold bind at 1 2. unfold get_self at 1.
  destruct (funpay_account self) as [account |] eqn:Hacc.
  - unfold ret at 1. cbn [negb].
    destruct (Hrest self) as (pre & r & self' & t & -> & Hq1 & Hq2 & H).
    exists pre, r, self', t. auto.
  - rewrite login_to_funpay_run. unfold final.
    destruct (config self !! "funpay_username") as [user |];
      [| exists [], (Ok tt), self, []; cbn; auto 10].
    destruct (py_truthy user);
      [| exists [], (Ok tt), self, []; cbn; auto 10].
    destruct (config self !! "funpay_password") as [pass |];
      [| exists [], (Ok tt), self, []; cbn; auto 10].
    destruct (py_truthy pass);
      [| exists [], (Ok tt), self, []; cbn; auto 10].
    destruct (account_new w user pass) as [[] | e]; cbn [negb fst snd].
    + destruct (Hrest (with_account self {| username := user; password := pass |}))
        as (pre & r & self' & t & -> & Hq1 & Hq2 & H).
      exists (EvLogin user pass :: pre), r, self', t. cbn. rewrite Hq1, Hq2. auto.
    + exists [EvLogin user pass], (Ok tt), self, []. cbn. auto 10.
Qed.

Lemma price_updates_elem (t : list event) (lot p : pyval) :
  EvChangeLotPrice lot p ∈ t -> price_updates t <> [].
Proof.
  induction t as [| ev t IH]; intros Hin.
  - by apply elem_of_nil in Hin.
  - apply elem_of_cons in Hin as [<- | Hin]; [discriminate |].
    destruct ev; cbn; auto; discriminate.
Qed.

(** C7. A cycle sends no notification at all, or its calls end with one
    price update that the marketplace accepted, followed by the
    notification; when the price update that was attempted raised, no
    notification is sent. *)
Theorem notification_only_after_update (w : World) (self : PriceDumper) :
  let run := check_and_update_price w self in
  (notifications (trace run) = [] \/
   exists before lot p account chat text,
     trace run = before ++ [EvChangeLotPrice lot p; EvSendMessage chat text] /\
     price_updates before = [] /\ notifications before = [] /\
     funpay_account (final run) = Some account /\
     change_lot_price w account lot p = Ok tt) /\
  (forall account lot p e,
     funpay_account (final run) = Some account ->
     EvChangeLotPrice lot p ∈ trace run ->
     change_lot_price w account lot p = Raise e ->
     notifications (trace run) = []).
Proof.
  cbn zeta.
  destruct (cycle_shape w self)
    as (pre & r & self' & t & -> & Hq1 & Hq2 & [[-> ->] | (me & c & Hu)]);
    unfold trace, final; cbn [fst snd].
  - rewrite app_nil_r. auto.
  - destruct (undercut_trace w me c (logged_in w self)) as [Hfinal Htrace].
    rewrite Hu in Hfinal, Htrace. unfold final, trace in Hfinal, Htrace.
    cbn [fst snd] in Hfinal, Htrace. subst self'.
    destruct Htrace as [-> | (account & lot & p & Hacc & [-> | (Hok & chat & text & ->)])].
    + rewrite app_nil_r. auto.
    + rewrite notifications_app, Hq2. cbn. auto.
    + split.
      * right. exists pre, lot, p, account, chat, text. auto.
      * intros account' lot' p' e Hacc' Hin Hfail.
        rewrite Hacc in Hacc'. injection Hacc' as <-.
        apply elem_of_app in Hin as [Hin | Hin].
        { destruct (price_updates_elem _ _ _ Hin Hq1). }
        apply elem_of_cons in Hin as [[= -> ->] | Hin]; [congruence |].
        apply list_elem_of_singleton in Hin. discriminate.
Qed.

(** The marketplace refuses the update: no message goes out. The
    marketplace accepts it: the message follows the update. *)
Example update_refused_no_notification :
  trace (check_and_update_price
           (Market.world (float_of_Z 10) (float_of_Z 8) (Raise ExternalError))
           (Market.dumper (PInt 1) (PInt 5))) =
  [EvGetLots (PStr "game") (PStr "server");
   EvChangeLotPrice (PStr "L1") (PFloat (float_of_Z 7))].
Proof. vm_compute. reflexivity. Qed.

Example update_accepted_notification :
  trace (check_and_update_price
           (Market.world (float_of_Z 10) (float_of_Z 8) (Ok tt))
           (Market.dumper (PInt 1) (PInt 5))) =
  [EvGetLots (PStr "game") (PStr "server");
   EvChangeLotPrice (PStr "L1") (PFloat (float_of_Z 7));
   EvSendMessage (PInt 42)
     (PriceLowered (float_of_Z 10) (PFloat (float_of_Z 7)) (AStr "A") (float_of_Z 8))].
Proof. vm_compute. reflexivity. Qed.

Lemma empty_snapshot_run (w : World) (self : PriceDumper) :
  outcome (get_market_prices w (logged_in w self)) = Ok [] ->
  exists t,
    check_and_update_price w self = (Ok tt, logged_in w self, t) /\
    price_updates t = [] /\ notifications t = [].
Proof.
  assert (Hrest : forall (self1 : PriceDumper) (k : list seller -> M unit),
    k [] = ret tt ->
    outcome (get_market_prices w self1) = Ok [] ->
    exists t0, price_updates t0 = [] /\ notifications t0 = [] /\
      bind (get_market_prices w) k self1 = (Ok tt, self1, t0)).
  { intros self1 k Hk Hempty.
    destruct (get_market_prices_total w self1) as (sellers & t0 & Hgmp & Hq1 & Hq2).
    rewrite Hgmp in Hempty. injection Hempty as ->.
    exists t0. unfold bind. rewrite Hgmp, Hk. cbn. rewrite app_nil_r. auto. }
  rewrite check_and_update_price_tail. unfold logged_in.
  unfold bind at 1 2. unfold get_self at 1.
  destruct (funpay_account self) as [account |] eqn:Hacc.
  - intros Hempty. unfold ret at 1. cbn [negb].
    match goal with
    | |- context [bind (get_market_prices w) ?k self] =>
        destruct (Hrest self k eq_refl Hempty) as (t0 & Hq1 & Hq2 & ->)
    end.
    cbn. eauto.
  - rewrite login_to_funpay_run. unfold final.
    destruct (config self !! "funpay_username") as [user |]; [| cbn; eauto].
    destruct (py_truthy user); [| cbn; eauto].
    destruct (config self !! "funpay_password") as [pass |]; [| cbn; eauto].
    destruct (py_truthy pass); [| cbn; eauto].
    destruct (account_new w user pass) as [[] | e]; cbn [negb fst snd];
      [| cbn; eauto].
    intros Hempty.
    match goal with
    | |- context [bind (get_market_prices w) ?k ?self1] =>
        destruct (Hrest self1 k eq_refl Hempty) as (t0 & Hq1 & Hq2 & ->)
    end.
    eexists. split; [reflexivity |]. cbn. rewrite ?app_nil_r, Hq1, Hq2. auto.
Qed.

(** C8. [get_market_prices] never raises and leaves [self] as it is; it
    returns the empty list when there is no session, when a configuration
    key is missing, when the marketplace query raises and when a price does
    not convert. A cycle whose snapshot is empty returns normally, having
    asked for no price update and sent no notification. *)
Theorem failed_snapshot_aborts_cycle (w : World) (self : PriceDumper) :
  (exists sellers, outcome (get_market_prices w self) = Ok sellers) /\
  final (get_market_prices w self) = self /\
  (funpay_account self = None -> outcome (get_market_prices w self) = Ok []) /\
  (config self !! "game_id" = None \/ config self !! "server_id" = None ->
   outcome (get_market_prices w self) = Ok []) /\
  (forall account game server e,
     funpay_account self = Some account ->
     config self !! "game_id" = Some game ->
     config self !! "server_id" = Some server ->
     get_lots w account game server = Raise e ->
     outcome (get_market_prices w self) = Ok []) /\
  (forall account game server all_lots e,
     funpay_account self = Some account ->
     config self !! "game_id" = Some game ->
     config self !! "server_id" = Some server ->
     get_lots w account game server = Ok all_lots ->
     collect_sellers all_lots = Raise e ->
     outcome (get_market_prices w self) = Ok []) /\
  (outcome (get_market_prices w (logged_in w self)) = Ok [] ->
   outcome (check_and_update_price w self) = Ok tt /\
   final (check_and_update_price w self) = logged_in w self /\
   price_updates (trace (check_and_update_price w self)) = [] /\
   notifications (trace (check_and_update_price w self)) = []).
Proof.
  repeat apply conj.
  - destruct (get_market_prices_total w self) as (sellers & t0 & -> & _). eauto.
  - destruct (get_market_prices_total w self) as (sellers & t0 & -> & _). reflexivity.
  - intros Hacc. rewrite get_market_prices_run, Hacc. reflexivity.
  - intros Hkey. rewrite get_market_prices_run.
    destruct (funpay_account self); [| reflexivity].
    destruct Hkey as [-> | ->]; [reflexivity |].
    destruct (config self !! "game_id"); reflexivity.
  - intros account game server e Hacc Hgame Hserver Hlots.
    rewrite get_market_prices_run, Hacc, Hgame, Hserver, Hlots. reflexivity.
  - intros account game server all_lots e Hacc Hgame Hserver Hlots Hconv.
    rewrite get_market_prices_run, Hacc, Hgame, Hserver, Hlots, Hconv. reflexivity.
  - intros Hempty.
    destruct (empty_snapshot_run w self Hempty) as (t & -> & Hq1 & Hq2).
    unfold outcome, final, trace. cbn [fst snd]. auto.
Qed.

Example offline_market_aborts_cycle :
  check_and_update_price Market.offline (Market.dumper (PInt 1) (PInt 5)) =
  (Ok tt, Market.dumper (PInt 1) (PInt 5), [EvGetLots (PStr "game") (PStr "server")]).
Proof. vm_compute. reflexivity. Qed.

(** A price that [float] rejects empties the whole snapshot. *)
Example unparsable_price_empties_snapshot :
  collect_sellers
    [Lot (AInt 1) (AStr "me") (Ok (float_of_Z 10)) (AStr "L1");
     Lot (AInt 2) (AStr "A") (Raise ValueError) (AStr "L2")] = Raise ValueError /\
  outcome (get_market_prices
             {| json_load := fun _ => Raise OSError;
                account_new := fun _ _ => Ok tt;
                get_lots := fun _ _ _ =>
                  Ok [Lot (AInt 1) (AStr "me") (Ok (float_of_Z 10)) (AStr "L1");
                      Lot (AInt 2) (AStr "A") (Raise ValueError) (AStr "L2")];
                change_lot_price := fun _ _ _ => Ok tt;
                send_message := fun _ _ _ => Ok tt |}
             (Market.dumper (PInt 1) (PInt 5))) = Ok [].
Proof. split; vm_compute; reflexivity. Qed.

(** ** Loading the configuration *)

(** C9. [load_config_file] touches nothing but the values of keys that
    [self.config] already has: a key that the configuration does not have
    is not added, a key that the file does not give keeps its value, and a
    key of the configuration that the file gives takes the file's value. *)
Theorem load_config_file_frame (w : World) (config_path : string)
    (self : PriceDumper) (k : string) :
  let self' := final (load_config_file w config_path self) in
  bot self' = bot self /\
  funpay_account self' = funpay_account self /\
  (config self !! k = None -> config self' !! k = None) /\
  (file_value w config_path k = None -> config self' !! k = config self !! k) /\
  (forall old v, config self !! k = Some old ->
     file_value w config_path k = Some v -> config self' !! k = Some v).
Proof.
  cbn zeta. rewrite load_config_file_run. unfold file_value, final.
  destruct (json_load w config_path) as [[a | l | items] | e]; cbn [fst snd];
    try (repeat split; auto; intros old v; discriminate).
  cbn zeta. cbn [fst snd with_config config bot funpay_account].
  rewrite merged_lookup. repeat split.
  - intros ->. reflexivity.
  - intros ->. destruct (config self !! k); reflexivity.
  - intros old v -> ->. reflexivity.
Qed.

Example load_config_file_sample :
  map_to_list (config (final (load_config_file (ConfigFile.world (PInt 25))
                                "config.json" ConfigFile.self))) ≡ₚ
  map_to_list
    (<["game_id" := PStr "41"]>
       (<["server_id" := PStr "7"]>
          (<["lot_id" := PStr "L1"]>
             (<["min_price" := PInt 25]> (config ConfigFile.self))))).
Proof. vm_compute. reflexivity. Qed.

(** C4, as the program does it. A file that sets [min_price] to 0 is
    refused: [load_config_file] returns [False]. When the three identifiers
    are truthy after the merge, it returns the truth value of the merged
    [min_price]. *)
Theorem load_config_file_min_price (w : World) (config_path : string)
    (self : PriceDumper) (items : list (string * pyval)) :
  json_load w config_path = Ok (PDict items) ->
  (item_value "min_price" items = Some (PInt 0) ->
   outcome (load_config_file w config_path self) = Ok false) /\
  (forall game server lot min_price,
     config (final (load_config_file w config_path self)) !! "game_id" = Some game ->
     config (final (load_config_file w config_path self)) !! "server_id" = Some server ->
     config (final (load_config_file w config_path self)) !! "lot_id" = Some lot ->
     config (final (load_config_file w config_path self)) !! "min_price" = Some min_price ->
     py_truthy game = true -> py_truthy server = true -> py_truthy lot = true ->
     outcome (load_config_file w config_path self) = Ok (py_truthy min_price)).
Proof.
  intros Hfile. rewrite load_config_file_run, Hfile. cbn zeta.
  unfold outcome, final. cbn [fst snd with_config config].
  set (cfg := merged (config self) items).
  unfold required_fields. cbn [validate]. unfold getitem. split.
  - intros Hzero.
    assert (Hmin : cfg !! "min_price" = None \/ cfg !! "min_price" = Some (PInt 0)).
    { unfold cfg. rewrite merged_lookup, Hzero.
      destruct (config self !! "min_price"); auto. }
    destruct (cfg !! "game_id") as [game |]; cbn [rbind]; [| reflexivity].
    destruct (py_truthy game); cbn [negb]; [| reflexivity].
    destruct (cfg !! "server_id") as [server |]; cbn [rbind]; [| reflexivity].
    destruct (py_truthy server); cbn [negb]; [| reflexivity].
    destruct (cfg !! "lot_id") as [lot |]; cbn [rbind]; [| reflexivity].
    destruct (py_truthy lot); cbn [negb]; [| reflexivity].
    destruct Hmin as [-> | ->]; reflexivity.
  - intros game server lot min_price -> -> -> -> Hgame Hserver Hlot.
    cbn [rbind]. rewrite Hgame, Hserver, Hlot. cbn [negb].
    destruct (py_truthy min_price); reflexivity.
Qed.

Lemma load_config_file_min_price_witness :
  (item_value "min_price" (ConfigFile.items (PInt 0)) = Some (PInt 0) ->
   outcome (load_config_file (ConfigFile.world (PInt 0)) "config.json"
              ConfigFile.self) = Ok false) /\
  (forall game server lot min_price,
     config (final (load_config_file (ConfigFile.world (PInt 0)) "config.json"
                      ConfigFile.self)) !! "game_id" = Some game ->
     config (final (load_config_file (ConfigFile.world (PInt 0)) "config.json"
                      ConfigFile.self)) !! "server_id" = Some server ->
     config (final (load_config_file (ConfigFile.world (PInt 0)) "config.json"
                      ConfigFile.self)) !! "lot_id" = Some lot ->
     config (final (load_config_file (ConfigFile.world (PInt 0)) "config.json"
                      ConfigFile.self)) !! "min_price" = Some min_price ->
     py_truthy game = true -> py_truthy server = true -> py_truthy lot = true ->
     outcome (load_config_file (ConfigFile.world (PInt 0)) "config.json"
                ConfigFile.self) = Ok (py_truthy min_price)).
Proof.
  apply (load_config_file_min_price (ConfigFile.world (PInt 0)) "config.json"
           ConfigFile.self (ConfigFile.items (PInt 0))).
  reflexivity.
Defined.

(** The file names a game, a server and a lot, and sets [min_price] to 0:
    the three identifiers are non-empty, and the configuration is refused. *)
Lemma min_price_zero_is_refused :
  file_value (ConfigFile.world (PInt 0)) "config.json" "game_id" = Some (PStr "41") /\
  file_value (ConfigFile.world (PInt 0)) "config.json" "server_id" = Some (PStr "7") /\
  file_value (ConfigFile.world (PInt 0)) "config.json" "lot_id" = Some (PStr "L1") /\
  file_value (ConfigFile.world (PInt 0)) "config.json" "min_price" = Some (PInt 0) /\
  outcome (load_config_file (ConfigFile.world (PInt 0)) "config.json" ConfigFile.self)
  = Ok false.
Proof. repeat split; vm_compute; reflexivity. Qed.

Example min_price_positive_is_accepted :
  outcome (load_config_file (ConfigFile.world (PInt 25)) "config.json" ConfigFile.self)
  = Ok true.
Proof. vm_compute. reflexivity. Qed.

(** * Further properties *)

(** ** The methods that talk to the outer world *)

(** X1. [login_to_funpay] never raises and never touches the configuration
    or the bot. It returns [True] exactly when both credentials are truthy
    and the marketplace accepted them, and then the session holds these
    credentials; when it returns [False] the object is as before. Without
    both credentials the marketplace is not called at all. *)
Theorem login_to_funpay_spec (w : World) (self : PriceDumper) :
  exists ok,
    outcome (login_to_funpay w self) = Ok ok /\
    config (final (login_to_funpay w self)) = config self /\
    bot (final (login_to_funpay w self)) = bot self /\
    (ok = false -> final (login_to_funpay w self) = self) /\
    (ok = true <->
       exists user pass,
         config self !! "funpay_username" = Some user /\
         config self !! "funpay_password" = Some pass /\
         py_truthy user = true /\ py_truthy pass = true /\
         account_new w user pass = Ok tt /\
         funpay_account (final (login_to_funpay w self)) =
           Some {| username := user; password := pass |}) /\
    (trace (login_to_funpay w self) = [] \/
     exists user pass,
       config self !! "funpay_username" = Some user /\
       config self !! "funpay_password" = Some pass /\
       py_truthy user = true /\ py_truthy pass = true /\
       trace (login_to_funpay w self) = [EvLogin user pass]).
Proof.
  rewrite login_to_funpay_run. unfold outcome, final, trace.
  destruct (config self !! "funpay_username") as [user |] eqn:Hu.
  2: { exists false. cbn. repeat split; auto; try discriminate.
       intros (u & p & H & _). discriminate. }
  destruct (py_truthy user) eqn:Htu.
  2: { exists false. cbn. repeat split; auto; try discriminate.
       intros (u & p & [= <-] & _ & H & _). congruence. }
  destruct (config self !! "funpay_password") as [pass |] eqn:Hp.
  2: { exists false. cbn. repeat split; auto; try discriminate.
       intros (u & p & _ & H & _). discriminate. }
  destruct (py_truthy pass) eqn:Htp.
  2: { exists false. cbn. repeat split; auto; try discriminate.
       intros (u & p & _ & [= <-] & _ & H & _). congruence. }
  destruct (account_new w user pass) as [[] | e] eqn:Hnew.
  - exists true. cbn. repeat split; auto; try discriminate.
    + intros _. exists user, pass. auto 10.
    + right. exists user, pass. auto 10.
  - exists false. cbn. repeat split; auto; try discriminate.
    + intros (u & p & [= <-] & [= <-] & _ & _ & H & _). congruence.
    + right. exists user, pass. auto 10.
Qed.

(** X2. [update_my_price] never raises and leaves the object as it is. It
    makes at most one call, for the configured lot and the price it was
    given, and returns [True] exactly when that call was made and returned.
    Without a session, or without the key [lot_id], nothing is called. *)
Theorem update_my_price_spec (w : World) (new_price : pyval) (self : PriceDumper) :
  exists ok,
    outcome (update_my_price w new_price self) = Ok ok /\
    final (update_my_price w new_price self) = self /\
    (trace (update_my_price w new_price self) = [] /\ ok = false /\
     (funpay_account self = None \/ config self !! "lot_id" = None)
     \/
     exists account lot,
       funpay_account self = Some account /\ config self !! "lot_id" = Some lot /\
       trace (update_my_price w new_price self) = [EvChangeLotPrice lot new_price] /\
       (ok = true <-> change_lot_price w account lot new_price = Ok tt)).
Proof.
  rewrite update_my_price_run. unfold outcome, final, trace.
  destruct (funpay_account self) as [account |]; [| exists false; cbn; auto 10].
  destruct (config self !! "lot_id") as [lot |]; [| exists false; cbn; auto 10].
  destruct (change_lot_price w account lot new_price) as [[] | e] eqn:Hcall.
  - exists true. cbn. repeat split; auto. right. exists account, lot.
    rewrite Hcall. repeat split; auto.
  - exists false. cbn. repeat split; auto. right. exists account, lot.
    rewrite Hcall. repeat split; auto; discriminate.
Qed.

(** X3. [send_telegram_notification] never raises and leaves the object as
    it is. Without a bot (or without the key [telegram_chat_id]) it calls
    nothing and returns [False]; otherwise it makes one call, to the
    configured chat with the text it was given, and returns [True] exactly
    when that call returned. *)
Theorem send_telegram_notification_spec (w : World) (text : message)
    (self : PriceDumper) :
  exists ok,
    outcome (send_telegram_notification w text self) = Ok ok /\
    final (send_telegram_notification w text self) = self /\
    (trace (send_telegram_notification w text self) = [] /\ ok = false /\
     (bot self = None \/ config self !! "telegram_chat_id" = None)
     \/
     exists b chat_id,
       bot self = Some b /\ config self !! "telegram_chat_id" = Some chat_id /\
       trace (send_telegram_notification w text self) = [EvSendMessage chat_id text] /\
       (ok = true <-> send_message w b chat_id text = Ok tt)).
Proof.
  rewrite send_telegram_notification_run. unfold outcome, final, trace.
  destruct (bot self) as [b |]; [| exists false; cbn; auto 10].
  destruct (config self !! "telegram_chat_id") as [chat_id |];
    [| exists false; cbn; auto 10].
  destruct (send_message w b chat_id text) as [[] | e] eqn:Hcall.
  - exists true. cbn. repeat split; auto. right. exists b, chat_id.
    rewrite Hcall. repeat split; auto.
  - exists false. cbn. repeat split; auto. right. exists b, chat_id.
    rewrite Hcall. repeat split; auto; discriminate.
Qed.

(** ** The cycle, case by case *)

(** The whole of [check_and_update_price]: the login on demand, the snapshot,
    the two searches, then lines 231-252. *)
Lemma check_and_update_price_run (w : World) (self : PriceDumper) :
  check_and_update_price w self =
  match funpay_account (logged_in w self) with
  | None => (Ok tt, logged_in w self, login_trace w self)
  | Some _ =>
      match get_market_prices w (logged_in w self) with
      | (Ok (s :: rest), _, t0) =>
          match find_my_listing (config self) (s :: rest) with
          | Raise e => (Raise e, logged_in w self, login_trace w self ++ t0)
          | Ok None => (Ok tt, logged_in w self, login_trace w self ++ t0)
          | Ok (Some me) =>
              match find_cheapest_competitor (config self) (s :: rest) with
              | Raise e => (Raise e, logged_in w self, login_trace w self ++ t0)
              | Ok None => (Ok tt, logged_in w self, login_trace w self ++ t0)
              | Ok (Some c) =>
                  match undercut w me c (logged_in w self) with
                  | (r, self', t) => (r, self', login_trace w self ++ t0 ++ t)
                  end
              end
          end
      | (_, _, t0) => (Ok tt, logged_in w self, login_trace w self ++ t0)
      end
  end.
Proof.
  assert (Hrest : forall self1 : PriceDumper,
    config self1 = config self ->
    (do sellers <- get_market_prices w;
     match sellers with
     | [] => ret tt
     | _ :: _ =>
         do self <- get_self;
         do my_listing <- lift (find_my_listing (config self) sellers);
         match my_listing with
         | None => ret tt
         | Some my_listing =>
             do cheapest <- lift (find_cheapest_competitor (config self) sellers);
             match cheapest with
             | None => ret tt
             | Some cheapest_competitor => undercut w my_listing cheapest_competitor
             end
         end
     end) self1 =
    match get_market_prices w self1 with
    | (Ok (s :: rest), _, t0) =>
        match find_my_listing (config self) (s :: rest) with
        | Raise e => (Raise e, self1, t0)
        | Ok None => (Ok tt, self1, t0)
        | Ok (Some me) =>
            match find_cheapest_competitor (config self) (s :: rest) with
            | Raise e => (Raise e, self1, t0)
            | Ok None => (Ok tt, self1, t0)
            | Ok (Some c) =>
                match undercut w me c self1 with
                | (r, self', t) => (r, self', t0 ++ t)
                end
            end
        end
    | (_, _, t0) => (Ok tt, self1, t0)
    end).
  { intros self1 Hcfg.
    destruct (get_market_prices_total w self1) as (sellers & t0 & Hgmp & _).
    unfold bind at 1. rewrite Hgmp.
    destruct sellers as [| s rest]; [cbn; rewrite app_nil_r; reflexivity |].
    unfold bind, get_self, lift, ret. rewrite Hcfg.
    destruct (find_my_listing (config self) (s :: rest)) as [[me |] | e];
      try (cbn; rewrite ?app_nil_r; reflexivity).
    destruct (find_cheapest_competitor (config self) (s :: rest)) as [[c |] | e];
      try (cbn; rewrite ?app_nil_r; reflexivity).
    destruct (undercut w me c self1) as [[r self'] t]. reflexivity. }
  assert (Hcases : forall (self1 : PriceDumper) (t1 : list event),
    match
      match
        match get_market_prices w self1 with
        | (Ok (s :: rest), _, t0) =>
            match find_my_listing (config self) (s :: rest) with
            | Raise e => (Raise e, self1, t0)
            | Ok None => (Ok tt, self1, t0)
            | Ok (Some me) =>
                match find_cheapest_competitor (config self) (s :: rest) with
                | Raise e => (Raise e, self1, t0)
                | Ok None => (Ok tt, self1, t0)
                | Ok (Some c) =>
                    match undercut w me c self1 with
                    | (r, self', t) => (r, self', t0 ++ t)
                    end
                end
            end
        | (_, _, t0) => (Ok tt, self1, t0)
        end
      with
      | (r, self2, t2) => (r, self2, t1 ++ t2)
      end
    with
    | (r, self2, t2) => (r, self2, [] ++ t2)
    end =
    match get_market_prices w self1 with
    | (Ok (s :: rest), _, t0) =>
        match find_my_listing (config self) (s :: rest) with
        | Raise e => (Raise e, self1, t1 ++ t0)
        | Ok None => (Ok tt, self1, t1 ++ t0)
        | Ok (Some me) =>
            match find_cheapest_competitor (config self) (s :: rest) with
            | Raise e => (Raise e, self1, t1 ++ t0)
            | Ok None => (Ok tt, self1, t1 ++ t0)
            | Ok (Some c) =>
                match undercut w me c self1 with
                | (r, self', t) => (r, self', t1 ++ t0 ++ t)
                end
            end
        end
    | (_, _, t0) => (Ok tt, self1, t1 ++ t0)
    end).
  { intros self1 t1.
    destruct (get_market_prices w self1) as [[[[| s rest] | e] s1] t0];
      try reflexivity.
    destruct (find_my_listing (config self) (s :: rest)) as [[me |] | e];
      try reflexivity.
    destruct (find_cheapest_competitor (config self) (s :: rest)) as [[c |] | e];
      try reflexivity.
    destruct (undercut w me c self1) as [[r self'] t]. reflexivity. }
  rewrite check_and_update_price_tail. unfold logged_in, login_trace.
  unfold bind at 1 2. unfold get_self at 1.
  destruct (funpay_account self) as [account |] eqn:Hacc.
  - unfold ret at 1. cbn [negb]. rewrite Hacc, (Hrest self eq_refl).
    apply (Hcases self []).
  - rewrite login_to_funpay_run. unfold final, trace.
    destruct (config self !! "funpay_username") as [user |];
      [| cbn [negb fst snd]; rewrite Hacc; reflexivity].
    destruct (py_truthy user); [| cbn [negb fst snd]; rewrite Hacc; reflexivity].
    destruct (config self !! "funpay_password") as [pass |];
      [| cbn [negb fst snd]; rewrite Hacc; reflexivity].
    destruct (py_truthy pass); [| cbn [negb fst snd]; rewrite Hacc; reflexivity].
    destruct (account_new w user pass) as [[] | e]; cbn [negb fst snd];
      [| rewrite Hacc; reflexivity].
    cbn [funpay_account with_account].
    rewrite (Hrest (with_account self {| username := user; password := pass |})
               eq_refl).
    apply (Hcases (with_account self {| username := user; password := pass |})
             [EvLogin user pass]).
Qed.

Lemma login_trace_kind (w : World) (self : PriceDumper) :
  Forall (fun ev => is_login ev = true) (login_trace w self) /\
  (length (login_trace w self) <= 1)%nat /\
  (funpay_account self <> None -> login_trace w self = []).
Proof.
  unfold login_trace. destruct (funpay_account self); [cbn; auto |].
  rewrite login_to_funpay_run. unfold trace.
  case_steps; cbn; repeat split; auto; congruence.
Qed.

Lemma get_market_prices_kind (w : World) (self : PriceDumper)
    (r : result (list seller)) (self' : PriceDumper) (t0 : list event) :
  get_market_prices w self = (r, self', t0) ->
  Forall (fun ev => is_query ev = true) t0 /\ (length t0 <= 1)%nat /\
  (forall s rest, r = Ok (s :: rest) -> t0 <> []).
Proof.
  rewrite get_market_prices_run.
  case_steps; intros [= <- <- <-]; cbn; repeat split; auto; congruence.
Qed.

Lemma undercut_final (w : World) (me c : seller) (self : PriceDumper)
    (r : result unit) (self' : PriceDumper) (t : list event) :
  undercut w me c self = (r, self', t) -> self' = self.
Proof.
  intros H. destruct (undercut_trace w me c self) as [Hf _].
  rewrite H in Hf. exact (eq_sym (eq_sym Hf)).
Qed.

Lemma cycle_final (w : World) (self : PriceDumper) :
  final (check_and_update_price w self) = logged_in w self.
Proof.
  rewrite check_and_update_price_run. unfold final.
  destruct (funpay_account (logged_in w self)); [| reflexivity].
  destruct (get_market_prices w (logged_in w self)) as [[[[| s rest] | e] s1] t0];
    try reflexivity.
  destruct (find_my_listing (config self) (s :: rest)) as [[me |] | e];
    try reflexivity.
  destruct (find_cheapest_competitor (config self) (s :: rest)) as [[c |] | e];
    try reflexivity.
  destruct (undercut w me c (logged_in w self)) as [[r self'] t] eqn:Hu.
  cbn. exact (undercut_final _ _ _ _ _ _ _ Hu).
Qed.

(** X4. A cycle never touches the configuration or the bot, and never drops
    a session: the object after the cycle is the object after the login on
    demand, which is the object itself when it already held a session. *)
Theorem cycle_frame (w : World) (self : PriceDumper) :
  config (final (check_and_update_price w self)) = config self /\
  bot (final (check_and_update_price w self)) = bot self /\
  final (check_and_update_price w self) = logged_in w self /\
  (forall account, funpay_account self = Some account ->
     funpay_account (final (check_and_update_price w self)) = Some account).
Proof.
  rewrite cycle_final. destruct (logged_in_config w self) as [Hc Hb].
  repeat split; auto.
  intros account Hacc. unfold logged_in. rewrite Hacc. exact Hacc.
Qed.

(** X5. The external calls of a cycle come in a fixed order and at most once
    each: a login, the snapshot query, a price update, a notification. A
    notification is never sent without a price update, and a price is never
    updated without a snapshot query in the same cycle. *)
Theorem cycle_call_order (w : World) (self : PriceDumper) :
  exists logins queries updates notes,
    trace (check_and_update_price w self) = logins ++ queries ++ updates ++ notes /\
    Forall (fun ev => is_login ev = true) logins /\
    Forall (fun ev => is_query ev = true) queries /\
    Forall (fun ev => is_update ev = true) updates /\
    Forall (fun ev => is_notification ev = true) notes /\
    (length logins <= 1)%nat /\ (length queries <= 1)%nat /\
    (length updates <= 1)%nat /\ (length notes <= 1)%nat /\
    (notes <> [] -> updates <> []) /\ (updates <> [] -> queries <> []).
Proof.
  destruct (login_trace_kind w self) as (Hl1 & Hl2 & _).
  assert (Hquiet : forall q,
    Forall (fun ev => is_query ev = true) q -> (length q <= 1)%nat ->
    exists logins queries updates notes,
      login_trace w self ++ q = logins ++ queries ++ updates ++ notes /\
      Forall (fun ev => is_login ev = true) logins /\
      Forall (fun ev => is_query ev = true) queries /\
      Forall (fun ev => is_update ev = true) updates /\
      Forall (fun ev => is_notification ev = true) notes /\
      (length logins <= 1)%nat /\ (length queries <= 1)%nat /\
      (length updates <= 1)%nat /\ (length notes <= 1)%nat /\
      (notes <> [] -> updates <> []) /\ (updates <> [] -> queries <> [])).
  { intros q Hq1 Hq2. exists (login_trace w self), q, [], [].
    rewrite !app_nil_r. cbn. repeat split; auto; congruence. }
  rewrite check_and_update_price_run. unfold trace.
  destruct (funpay_account (logged_in w self)).
  2: { cbn [snd]. rewrite <- (app_nil_r (login_trace w self)).
       apply Hquiet; cbn; auto. }
  destruct (get_market_prices w (logged_in w self)) as [[r s1] t0] eqn:Hgmp.
  destruct (get_market_prices_kind _ _ _ _ _ Hgmp) as (Hq1 & Hq2 & Hq3).
  destruct r as [[| s rest] | e]; cbn [snd]; try (apply Hquiet; assumption).
  destruct (find_my_listing (config self) (s :: rest)) as [[me |] | e];
    cbn [snd]; try (apply Hquiet; assumption).
  destruct (find_cheapest_competitor (config self) (s :: rest)) as [[c |] | e];
    cbn [snd]; try (apply Hquiet; assumption).
  destruct (undercut_trace w me c (logged_in w self)) as [_ Ht].
  destruct (undercut w me c (logged_in w self)) as [[r self'] t].
  unfold trace in Ht. cbn [snd] in Ht |- *.
  specialize (Hq3 s rest eq_refl).
  destruct Ht as [-> | (account & lot & p & _ & [-> | (_ & chat & text & ->)])].
  - exists (login_trace w self), t0, [], [].
    cbn. repeat split; auto; congruence.
  - exists (login_trace w self), t0, [EvChangeLotPrice lot p], [].
    cbn. repeat split; auto; congruence.
  - exists (login_trace w self), t0, [EvChangeLotPrice lot p], [EvSendMessage chat text].
    cbn. repeat split; auto; congruence.
Qed.

(** X6. A cycle that starts with a session makes no login call and leaves
    the object exactly as it was. *)
Theorem cycle_with_session (w : World) (self : PriceDumper) (account : Account) :
  funpay_account self = Some account ->
  final (check_and_update_price w self) = self /\
  Forall (fun ev => is_login ev = false) (trace (check_and_update_price w self)).
Proof.
  intros Hacc.
  split; [rewrite cycle_final; unfold logged_in; rewrite Hacc; reflexivity |].
  destruct (login_trace_kind w self) as (_ & _ & Hnil).
  assert (Hl : login_trace w self = []) by (apply Hnil; congruence).
  assert (Hq : forall t, Forall (fun ev => is_query ev = true) t ->
            Forall (fun ev => is_login ev = false) t).
  { intros t Ht. eapply Forall_impl; [exact Ht |].
    intros [] H; cbn in *; congruence. }
  rewrite check_and_update_price_run, Hl. unfold trace.
  destruct (funpay_account (logged_in w self)); [| constructor].
  destruct (get_market_prices w (logged_in w self)) as [[r s1] t0] eqn:Hgmp.
  destruct (get_market_prices_kind _ _ _ _ _ Hgmp) as (Hq1 & _ & _).
  destruct r as [[| s rest] | e]; cbn [snd app]; auto.
  destruct (find_my_listing (config self) (s :: rest)) as [[me |] | e];
    cbn [snd app]; auto.
  destruct (find_cheapest_competitor (config self) (s :: rest)) as [[c |] | e];
    cbn [snd app]; auto.
  destruct (undercut_trace w me c (logged_in w self)) as [_ Ht].
  destruct (undercut w me c (logged_in w self)) as [[r self'] t].
  unfold trace in Ht. cbn [snd] in Ht |- *.
  apply Forall_app. split; [auto |].
  destruct Ht as [-> | (acc & lot & p & _ & [-> | (_ & chat & text & ->)])];
    repeat constructor.
Qed.

Lemma cycle_with_session_witness :
  final (check_and_update_price
           (Market.world (float_of_Z 10) (float_of_Z 8) (Ok tt))
           (Market.dumper (PInt 1) (PInt 5))) = Market.dumper (PInt 1) (PInt 5) /\
  Forall (fun ev => is_login ev = false)
    (trace (check_and_update_price
              (Market.world (float_of_Z 10) (float_of_Z 8) (Ok tt))
              (Market.dumper (PInt 1) (PInt 5)))).
Proof.
  apply (cycle_with_session
           (Market.world (float_of_Z 10) (float_of_Z 8) (Ok tt))
           (Market.dumper (PInt 1) (PInt 5))
           {| username := PStr "user"; password := PStr "secret" |}).
  reflexivity.
Defined.

(** X7. Without a session, a cycle whose login fails stops there: it returns
    normally, the object is as before, and the marketplace is asked for
    nothing but the login. *)
Theorem failed_login_aborts_cycle (w : World) (self : PriceDumper) :
  funpay_account self = None ->
  outcome (login_to_funpay w self) = Ok false ->
  check_and_update_price w self = (Ok tt, self, trace (login_to_funpay w self)) /\
  Forall (fun ev => is_login ev = true) (trace (check_and_update_price w self)).
Proof.
  intros Hacc Hfail.
  destruct (login_trace_kind w self) as (Hl & _ & _).
  assert (Hsame : final (login_to_funpay w self) = self).
  { revert Hfail. rewrite login_to_funpay_run. unfold outcome, final.
    case_steps; cbn; congruence. }
  assert (Hrun : check_and_update_price w self =
                 (Ok tt, self, trace (login_to_funpay w self))).
  { rewrite check_and_update_price_run. unfold logged_in, login_trace.
    rewrite Hacc, Hsame, Hacc. reflexivity. }
  split; [exact Hrun |].
  rewrite Hrun. unfold login_trace in Hl. rewrite Hacc in Hl. exact Hl.
Qed.

Lemma failed_login_aborts_cycle_witness :
  check_and_update_price Edge.refusing (Market.fresh (PInt 1) (PInt 5)) =
  (Ok tt, Market.fresh (PInt 1) (PInt 5),
   trace (login_to_funpay Edge.refusing (Market.fresh (PInt 1) (PInt 5)))) /\
  Forall (fun ev => is_login ev = true)
    (trace (check_and_update_price Edge.refusing (Market.fresh (PInt 1) (PInt 5)))).
Proof.
  apply (failed_login_aborts_cycle Edge.refusing (Market.fresh (PInt 1) (PInt 5)));
    vm_compute; reflexivity.
Defined.

(** ** What a price update and a notification tell *)

Lemma undercut_update (w : World) (me c : seller) (self : PriceDumper)
    (lot p : pyval) :
  EvChangeLotPrice lot p ∈ trace (undercut w me c self) ->
  SFleb (price me) (price c) = false /\
  config self !! "lot_id" = Some lot /\
  exists decrease lowered min_price below,
    config self !! "price_decrease_amount" = Some decrease /\
    float_sub_val (price c) decrease = Ok lowered /\
    config self !! "min_price" = Some min_price /\
    float_lt_val lowered min_price = Ok below /\
    p = (if below then min_price else PFloat lowered).
Proof.
  rewrite undercut_run. unfold trace.
  destruct (SFleb (price me) (price c)); [intros H; by apply elem_of_nil in H |].
  destruct (config self !! "price_decrease_amount") as [decrease |];
    [| intros H; by apply elem_of_nil in H].
  destruct (float_sub_val (price c) decrease) as [lowered | e] eqn:Hsub;
    [| intros H; by apply elem_of_nil in H].
  destruct (config self !! "min_price") as [min_price |];
    [| intros H; by apply elem_of_nil in H].
  destruct (float_lt_val lowered min_price) as [below | e] eqn:Hlt;
    [| intros H; by apply elem_of_nil in H].
  cbn zeta. rewrite update_my_price_run, send_telegram_notification_run.
  destruct (funpay_account self) as [account |];
    [| intros H; by apply elem_of_nil in H].
  destruct (config self !! "lot_id") as [lot' |];
    [| intros H; by apply elem_of_nil in H].
  assert (Hhead : forall t,
    EvChangeLotPrice lot p ∈
      EvChangeLotPrice lot' (if below then min_price else PFloat lowered) :: t ->
    Forall (fun ev => is_update ev = false) t ->
    lot = lot' /\ p = (if below then min_price else PFloat lowered)).
  { intros t [[= -> ->] | Hin]%elem_of_cons Ht; [auto |].
    rewrite Forall_forall in Ht. specialize (Ht _ Hin). discriminate. }
  intros Hin.
  assert (Hev : lot = lot' /\ p = (if below then min_price else PFloat lowered)).
  { revert Hin.
    destruct (change_lot_price w account lot' _) as [[] | e]; cbn [fst snd];
      [| intros Hin; apply (Hhead [] Hin); constructor].
    destruct (bot self) as [b |]; cbn [snd app];
      [| intros Hin; apply (Hhead [] Hin); constructor].
    destruct (config self !! "telegram_chat_id") as [chat |]; cbn [snd app];
      [| intros Hin; apply (Hhead [] Hin); constructor].
    intros Hin. apply (Hhead _ Hin). repeat constructor. }
  destruct Hev as [-> ->]. split; [reflexivity |]. split; [reflexivity |].
  exists decrease, lowered, min_price, below. auto.
Qed.

Lemma undercut_message (w : World) (me c : seller) (self : PriceDumper)
    (chat : pyval) (text : message) :
  EvSendMessage chat text ∈ trace (undercut w me c self) ->
  config self !! "telegram_chat_id" = Some chat /\
  exists lot p,
    trace (undercut w me c self) = [EvChangeLotPrice lot p; EvSendMessage chat text] /\
    text = PriceLowered (price me) p (seller_name c) (price c).
Proof.
  rewrite undercut_run. unfold trace.
  destruct (SFleb (price me) (price c)); [intros H; by apply elem_of_nil in H |].
  destruct (config self !! "price_decrease_amount") as [decrease |];
    [| intros H; by apply elem_of_nil in H].
  destruct (float_sub_val (price c) decrease) as [lowered | e];
    [| intros H; by apply elem_of_nil in H].
  destruct (config self !! "min_price") as [min_price |];
    [| intros H; by apply elem_of_nil in H].
  destruct (float_lt_val lowered min_price) as [below | e];
    [| intros H; by apply elem_of_nil in H].
  cbn zeta. rewrite update_my_price_run, send_telegram_notification_run.
  destruct (funpay_account self) as [account |];
    [| intros H; by apply elem_of_nil in H].
  destruct (config self !! "lot_id") as [lot |];
    [| intros H; by apply elem_of_nil in H].
  destruct (change_lot_price w account lot _) as [[] | e]; cbn [fst snd].
  2: { intros Hin. apply elem_of_cons in Hin as [Hin | Hin]; [discriminate |].
       by apply elem_of_nil in Hin. }
  destruct (bot self) as [b |]; cbn [snd app].
  2: { intros Hin. apply elem_of_cons in Hin as [Hin | Hin]; [discriminate |].
       by apply elem_of_nil in Hin. }
  destruct (config self !! "telegram_chat_id") as [chat' |]; cbn [snd app].
  2: { intros Hin. apply elem_of_cons in Hin as [Hin | Hin]; [discriminate |].
       by apply elem_of_nil in Hin. }
  intros Hin. apply elem_of_cons in Hin as [Hin | Hin]; [discriminate |].
  apply list_elem_of_singleton in Hin. injection Hin as -> ->.
  split; [reflexivity |]. eauto.
Qed.

(** Where the calls of lines 231-252 come from, in a whole cycle. *)
Lemma cycle_undercut (w : World) (self : PriceDumper) (ev : event) :
  ev ∈ trace (check_and_update_price w self) ->
  is_login ev = false -> is_query ev = false ->
  exists sellers t0 me c,
    get_market_prices w (logged_in w self) = (Ok sellers, logged_in w self, t0) /\
    find_my_listing (config self) sellers = Ok (Some me) /\
    find_cheapest_competitor (config self) sellers = Ok (Some c) /\
    trace (check_and_update_price w self) =
      login_trace w self ++ t0 ++ trace (undercut w me c (logged_in w self)) /\
    ev ∈ trace (undercut w me c (logged_in w self)).
Proof.
  intros Hin Hnl Hnq.
  destruct (login_trace_kind w self) as (Hl & _ & _).
  assert (Hquiet : forall q, Forall (fun ev => is_query ev = true) q ->
            ev ∉ login_trace w self ++ q).
  { intros q Hq [H | H]%elem_of_app.
    - rewrite Forall_forall in Hl. specialize (Hl ev H). congruence.
    - rewrite Forall_forall in Hq. specialize (Hq ev H). congruence. }
  revert Hin. rewrite check_and_update_price_run. unfold trace at 1 2.
  destruct (funpay_account (logged_in w self)).
  2: { cbn [snd]. intros Hin.
       assert (Hq0 : Forall (fun ev => is_query ev = true) []) by constructor.
       destruct (Hquiet [] Hq0). rewrite app_nil_r. exact Hin. }
  destruct (get_market_prices_total w (logged_in w self))
    as (sellers & t0 & Hgmp & _).
  destruct (get_market_prices_kind _ _ _ _ _ Hgmp) as (Hq & _ & _).
  rewrite Hgmp.
  destruct sellers as [| s rest]; cbn [snd];
    [intros Hin; destruct (Hquiet t0 Hq Hin) |].
  destruct (find_my_listing (config self) (s :: rest)) as [[me |] | e] eqn:Hme;
    cbn [snd]; try (intros Hin; destruct (Hquiet t0 Hq Hin)).
  destruct (find_cheapest_competitor (config self) (s :: rest)) as [[c |] | e] eqn:Hc;
    cbn [snd]; try (intros Hin; destruct (Hquiet t0 Hq Hin)).
  destruct (undercut w me c (logged_in w self)) as [[r self'] t] eqn:Hu.
  cbn [snd]. intros Hin.
  exists (s :: rest), t0, me, c. rewrite Hu. unfold trace. cbn [snd].
  repeat split; auto.
  rewrite app_assoc in Hin. apply elem_of_app in Hin as [Hin | Hin]; [| exact Hin].
  destruct (Hquiet t0 Hq Hin).
Qed.

(** X8. A cycle never sends the marketplace a price below the configured
    floor: the price of an update is the value of [min_price] itself, or a
    float that Python does not find below it. *)
Theorem cycle_respects_floor (w : World) (self : PriceDumper) (lot p : pyval) :
  EvChangeLotPrice lot p ∈ trace (check_and_update_price w self) ->
  exists min_price,
    config self !! "min_price" = Some min_price /\
    (p = min_price \/
     exists x, p = PFloat x /\ float_lt_val x min_price = Ok false).
Proof.
  intros Hin.
  destruct (cycle_undercut w self _ Hin eq_refl eq_refl)
    as (sellers & t0 & me & c & _ & _ & _ & _ & Hu).
  destruct (logged_in_config w self) as [Hcfg _].
  apply undercut_update in Hu
    as (_ & _ & decrease & lowered & min_price & below & _ & _ & Hmin & Hlt & ->).
  rewrite Hcfg in Hmin. exists min_price. split; [exact Hmin |].
  destruct below; eauto.
Qed.

Lemma cycle_respects_floor_witness :
  exists min_price,
    config (Market.dumper (PInt 1) (PFloat (dyadic 15 (-1)))) !! "min_price"
    = Some min_price /\
    (PFloat (dyadic 15 (-1)) = min_price \/
     exists x, PFloat (dyadic 15 (-1)) = PFloat x /\
               float_lt_val x min_price = Ok false).
Proof.
  apply (cycle_respects_floor
           (Market.world (float_of_Z 10) (float_of_Z 8) (Ok tt))
           (Market.dumper (PInt 1) (PFloat (dyadic 15 (-1))))
           (PStr "L1") (PFloat (dyadic 15 (-1)))).
  vm_compute. apply elem_of_cons. right. apply elem_of_cons. left. reflexivity.
Defined.

(** X9. A cycle changes a price only for the configured lot, and only when
    the snapshot it fetched holds the own listing and a competitor that is
    not the own lot, is not whitelisted by id or name, and whose price the
    own price is not at or below. *)
Theorem cycle_update_provenance (w : World) (self : PriceDumper) (lot p : pyval) :
  EvChangeLotPrice lot p ∈ trace (check_and_update_price w self) ->
  config self !! "lot_id" = Some lot /\
  exists sellers t0 me c,
    get_market_prices w (logged_in w self) = (Ok sellers, logged_in w self, t0) /\
    me ∈ sellers /\ c ∈ sellers /\
    py_eq (lot_id me) lot = true /\ py_eq (lot_id c) lot = false /\
    in_whitelist (config self) c = Ok false /\
    SFleb (price me) (price c) = false.
Proof.
  intros Hin.
  destruct (cycle_undercut w self _ Hin eq_refl eq_refl)
    as (sellers & t0 & me & c & Hgmp & Hme & Hc & _ & Hu).
  destruct (logged_in_config w self) as [Hcfg _].
  apply undercut_update in Hu as (Hle & Hlot & _).
  rewrite Hcfg in Hlot. split; [exact Hlot |].
  exists sellers, t0, me, c.
  unfold find_my_listing, find_cheapest_competitor, getitem in Hme, Hc.
  rewrite Hlot in Hme, Hc. cbn [rbind] in Hme, Hc.
  injection Hme as Hme.
  apply find_my_listing_from_Some in Hme as (i & Hi & Hself & _).
  apply find_cheapest_from_Some in Hc as [Hc | (Hcin & Hcself & Hcwl)];
    [discriminate |].
  repeat split; auto. eapply list_elem_of_lookup_2, Hi.
Qed.

Lemma cycle_update_provenance_witness :
  config (Market.dumper (PInt 1) (PInt 5)) !! "lot_id" = Some (PStr "L1") /\
  exists sellers t0 me c,
    get_market_prices (Market.world (float_of_Z 10) (float_of_Z 8) (Ok tt))
      (logged_in (Market.world (float_of_Z 10) (float_of_Z 8) (Ok tt))
         (Market.dumper (PInt 1) (PInt 5)))
    = (Ok sellers,
       logged_in (Market.world (float_of_Z 10) (float_of_Z 8) (Ok tt))
         (Market.dumper (PInt 1) (PInt 5)), t0) /\
    me ∈ sellers /\ c ∈ sellers /\
    py_eq (lot_id me) (PStr "L1") = true /\ py_eq (lot_id c) (PStr "L1") = false /\
    in_whitelist (config (Market.dumper (PInt 1) (PInt 5))) c = Ok false /\
    SFleb (price me) (price c) = false.
Proof.
  apply (cycle_update_provenance
           (Market.world (float_of_Z 10) (float_of_Z 8) (Ok tt))
           (Market.dumper (PInt 1) (PInt 5))
           (PStr "L1") (PFloat (float_of_Z 7))).
  vm_compute. apply elem_of_cons. right. apply elem_of_cons. left. reflexivity.
Defined.

(** X10. A notification reports what was done: it goes to the configured
    chat, right after the price update, and it carries the own price as old
    price, the price that was sent to the marketplace as new price, and the
    name and price of the cheapest competitor of the snapshot. *)
Theorem notification_reports_update (w : World) (self : PriceDumper)
    (chat : pyval) (text : message) :
  EvSendMessage chat text ∈ trace (check_and_update_price w self) ->
  config self !! "telegram_chat_id" = Some chat /\
  exists sellers t0 me c lot p,
    get_market_prices w (logged_in w self) = (Ok sellers, logged_in w self, t0) /\
    find_my_listing (config self) sellers = Ok (Some me) /\
    find_cheapest_competitor (config self) sellers = Ok (Some c) /\
    trace (check_and_update_price w self) =
      login_trace w self ++ t0 ++ [EvChangeLotPrice lot p; EvSendMessage chat text] /\
    text = PriceLowered (price me) p (seller_name c) (price c).
Proof.
  intros Hin.
  destruct (cycle_undercut w self _ Hin eq_refl eq_refl)
    as (sellers & t0 & me & c & Hgmp & Hme & Hc & Ht & Hu).
  destruct (logged_in_config w self) as [Hcfg _].
  apply undercut_message in Hu as (Hchat & lot & p & Htr & ->).
  rewrite Hcfg in Hchat. split; [exact Hchat |].
  exists sellers, t0, me, c, lot, p. rewrite Ht, Htr. auto.
Qed.

Lemma notification_reports_update_witness :
  config (Market.dumper (PInt 1) (PInt 5)) !! "telegram_chat_id" = Some (PInt 42) /\
  exists sellers t0 me c lot p,
    get_market_prices (Market.world (float_of_Z 10) (float_of_Z 8) (Ok tt))
      (logged_in (Market.world (float_of_Z 10) (float_of_Z 8) (Ok tt))
         (Market.dumper (PInt 1) (PInt 5)))
    = (Ok sellers,
       logged_in (Market.world (float_of_Z 10) (float_of_Z 8) (Ok tt))
         (Market.dumper (PInt 1) (PInt 5)), t0) /\
    find_my_listing (config (Market.dumper (PInt 1) (PInt 5))) sellers = Ok (Some me) /\
    find_cheapest_competitor (config (Market.dumper (PInt 1) (PInt 5))) sellers
    = Ok (Some c) /\
    trace (check_and_update_price
             (Market.world (float_of_Z 10) (float_of_Z 8) (Ok tt))
             (Market.dumper (PInt 1) (PInt 5))) =
      login_trace (Market.world (float_of_Z 10) (float_of_Z 8) (Ok tt))
        (Market.dumper (PInt 1) (PInt 5)) ++ t0 ++
      [EvChangeLotPrice lot p;
       EvSendMessage (PInt 42)
         (PriceLowered (float_of_Z 10) (PFloat (float_of_Z 7)) (AStr "A")
            (float_of_Z 8))] /\
    PriceLowered (float_of_Z 10) (PFloat (float_of_Z 7)) (AStr "A") (float_of_Z 8)
    = PriceLowered (price me) p (seller_name c) (price c).
Proof.
  apply (notification_reports_update
           (Market.world (float_of_Z 10) (float_of_Z 8) (Ok tt))
           (Market.dumper (PInt 1) (PInt 5))
           (PInt 42)
           (PriceLowered (float_of_Z 10) (PFloat (float_of_Z 7)) (AStr "A")
              (float_of_Z 8))).
  vm_compute. apply elem_of_cons. right. apply elem_of_cons. right.
  apply elem_of_cons. left. reflexivity.
Defined.

(** ** When a cycle stops early, and when it raises *)

(** X11. When the own listing is not in the snapshot, or when every other
    entry is the own lot or whitelisted, the cycle stops after the snapshot
    query: it returns normally and calls nothing else. *)
Theorem cycle_without_listing_or_competitor (w : World) (self : PriceDumper)
    (sellers : list seller) (t0 : list event) :
  get_market_prices w (logged_in w self) = (Ok sellers, logged_in w self, t0) ->
  find_my_listing (config self) sellers = Ok None \/
  (exists me, find_my_listing (config self) sellers = Ok (Some me) /\
              find_cheapest_competitor (config self) sellers = Ok None) ->
  check_and_update_price w self =
  (Ok tt, logged_in w self, login_trace w self ++ t0).
Proof.
  intros Hgmp Hstop. rewrite check_and_update_price_run.
  destruct (funpay_account (logged_in w self)) eqn:Hacc.
  - rewrite Hgmp. destruct sellers as [| s rest]; [reflexivity |].
    destruct Hstop as [-> | (me & -> & ->)]; reflexivity.
  - rewrite get_market_prices_run, Hacc in Hgmp. injection Hgmp as <- <-.
    rewrite app_nil_r. reflexivity.
Qed.

Lemma cycle_without_listing_or_competitor_witness :
  check_and_update_price Edge.delisted (Market.dumper (PInt 1) (PInt 5)) =
  (Ok tt,
   logged_in Edge.delisted (Market.dumper (PInt 1) (PInt 5)),
   login_trace Edge.delisted (Market.dumper (PInt 1) (PInt 5)) ++
   [EvGetLots (PStr "game") (PStr "server")]).
Proof.
  apply (cycle_without_listing_or_competitor
           Edge.delisted (Market.dumper (PInt 1) (PInt 5))
           [Seller (AInt 2) (AStr "A") (float_of_Z 8) (AStr "L2")]).
  - vm_compute. reflexivity.
  - left. vm_compute. reflexivity.
Defined.

(** X12. Lines 214-241 are outside every [try]: an exception of
    [find_my_listing] or [find_cheapest_competitor] on a non-empty snapshot
    (a missing key [lot_id] or [whitelist], a whitelist that is not a
    container) leaves the cycle as it is raised, after the snapshot query
    and before any price update. *)
Theorem cycle_search_error_escapes (w : World) (self : PriceDumper)
    (s : seller) (rest : list seller) (t0 : list event) (e : pyexc) :
  get_market_prices w (logged_in w self) = (Ok (s :: rest), logged_in w self, t0) ->
  find_my_listing (config self) (s :: rest) = Raise e \/
  (exists me, find_my_listing (config self) (s :: rest) = Ok (Some me) /\
              find_cheapest_competitor (config self) (s :: rest) = Raise e) ->
  check_and_update_price w self =
  (Raise e, logged_in w self, login_trace w self ++ t0).
Proof.
  intros Hgmp Herr. rewrite check_and_update_price_run.
  destruct (funpay_account (logged_in w self)) eqn:Hacc.
  - rewrite Hgmp. destruct Herr as [-> | (me & -> & ->)]; reflexivity.
  - rewrite get_market_prices_run, Hacc in Hgmp. discriminate.
Qed.

(** The whitelist of the file is a number: the first competitor met raises
    [TypeError], and the cycle with it. *)
Lemma cycle_search_error_escapes_witness :
  check_and_update_price
    (Market.world (float_of_Z 10) (float_of_Z 8) (Ok tt))
    {| config := <["whitelist" := PInt 7]> (Market.cfg (PInt 1) (PInt 5));
       bot := None;
       funpay_account := Some {| username := PStr "user"; password := PStr "secret" |} |}
  = (Raise TypeError,
     logged_in (Market.world (float_of_Z 10) (float_of_Z 8) (Ok tt))
       {| config := <["whitelist" := PInt 7]> (Market.cfg (PInt 1) (PInt 5));
          bot := None;
          funpay_account :=
            Some {| username := PStr "user"; password := PStr "secret" |} |},
     login_trace (Market.world (float_of_Z 10) (float_of_Z 8) (Ok tt))
       {| config := <["whitelist" := PInt 7]> (Market.cfg (PInt 1) (PInt 5));
          bot := None;
          funpay_account :=
            Some {| username := PStr "user"; password := PStr "secret" |} |}
     ++ [EvGetLots (PStr "game") (PStr "server")]).
Proof.
  apply (cycle_search_error_escapes
           (Market.world (float_of_Z 10) (float_of_Z 8) (Ok tt)) _
           (Seller (AInt 1) (AStr "me") (float_of_Z 10) (AStr "L1"))
           [Seller (AInt 2) (AStr "A") (float_of_Z 8) (AStr "L2")]).
  - vm_compute. reflexivity.
  - right. exists (Seller (AInt 1) (AStr "me") (float_of_Z 10) (AStr "L1")).
    split; vm_compute; reflexivity.
Defined.






(** ** Loading the configuration, further *)

Lemma validate_true (cfg : gmap string pyval) (fields : list string) :
  validate cfg fields = Ok true <->
  Forall (fun field => exists v, cfg !! field = Some v /\ py_truthy v = true) fields.
Proof.
  induction fields as [| field rest IH]; cbn [validate].
  - split; auto.
  - unfold getitem. destruct (cfg !! field) as [v |] eqn:Hv; cbn [rbind].
    + destruct (py_truthy v) eqn:Ht; cbn [negb].
      * rewrite IH. split.
        -- intros H. constructor; eauto.
        -- intros H. inversion H; assumption.
      * split; [discriminate |]. intros H. inversion H as [| ? ? (v' & Hv' & Ht') _].
        congruence.
    + split; [discriminate |]. intros H. inversion H as [| ? ? (v' & Hv' & _) _].
      congruence.
Qed.

(** X14. [load_config_file] never raises and calls nothing outside the
    process. It returns [True] exactly when the file holds a JSON object
    and, after the merge, each of [game_id], [server_id], [lot_id] and
    [min_price] is a key of the configuration with a truthy value. *)
Theorem load_config_file_validated (w : World) (config_path : string)
    (self : PriceDumper) :
  exists ok,
    outcome (load_config_file w config_path self) = Ok ok /\
    trace (load_config_file w config_path self) = [] /\
    (ok = true <->
     (exists items, json_load w config_path = Ok (PDict items)) /\
     validated (config (final (load_config_file w config_path self)))).
Proof.
  rewrite load_config_file_run. unfold outcome, trace, final, validated.
  destruct (json_load w config_path) as [[a | l | items] | e]; cbn [fst snd];
    try (exists false; repeat split; auto; try discriminate;
         intros [(items & H) _]; discriminate).
  cbn zeta. cbn [fst snd with_config config].
  destruct (validate (merged (config self) items) required_fields) as [ok | e] eqn:Hv.
  - exists ok. repeat split; auto.
    + eauto.
    + subst ok. by apply validate_true.
    + intros [_ H]. apply validate_true in H. congruence.
  - exists false. repeat split; auto; try discriminate.
    intros [_ H]. apply validate_true in H. congruence.
Qed.

(** X15. A file that cannot be read, or that does not hold a JSON object,
    makes [load_config_file] return [False] and leaves the object exactly as
    it was. *)
Theorem load_config_file_unreadable (w : World) (config_path : string)
    (self : PriceDumper) :
  (forall items, json_load w config_path <> Ok (PDict items)) ->
  load_config_file w config_path self = (Ok false, self, []).
Proof.
  intros Hbad. rewrite load_config_file_run.
  destruct (json_load w config_path) as [[a | l | items] | e]; try reflexivity.
  destruct (Hbad items eq_refl).
Qed.

Lemma load_config_file_unreadable_witness :
  load_config_file Market.offline "config.json" ConfigFile.self =
  (Ok false, ConfigFile.self, []).
Proof.
  apply (load_config_file_unreadable Market.offline "config.json" ConfigFile.self).
  intros items. discriminate.
Defined.

Lemma merged_idempotent (cfg : gmap string pyval) (items : list (string * pyval)) :
  merged (merged cfg items) items = merged cfg items.
Proof.
  apply map_eq. intros k. rewrite !merged_lookup.
  destruct (cfg !! k) as [old |]; [| reflexivity].
  destruct (item_value k items); reflexivity.
Qed.

(** X16. Loading the same file a second time changes nothing more: the
    object and the returned value are those of the first load. *)
Theorem load_config_file_idempotent (w : World) (config_path : string)
    (self : PriceDumper) :
  load_config_file w config_path (final (load_config_file w config_path self)) =
  load_config_file w config_path self.
Proof.
  rewrite !load_config_file_run. unfold final.
  destruct (json_load w config_path) as [[a | l | items] | e]; cbn [fst snd];
    try reflexivity.
  cbn zeta. cbn [fst snd with_config config bot funpay_account].
  rewrite merged_idempotent. reflexivity.
Qed.

(** ** The snapshot, further *)

(** X17. The snapshot is all or nothing, and in the order of the
    marketplace: when the query returns, [get_market_prices] returns one
    entry per lot, in the same order, each with the lot's user id, user
    name, price as a float and lot id, or, when the price of some lot does
    not convert, the empty list. *)
Theorem snapshot_follows_lots (w : World) (self : PriceDumper) (account : Account)
    (game server : pyval) (all_lots : list lot) :
  funpay_account self = Some account ->
  config self !! "game_id" = Some game ->
  config self !! "server_id" = Some server ->
  get_lots w account game server = Ok all_lots ->
  exists sellers,
    get_market_prices w self = (Ok sellers, self, [EvGetLots game server]) /\
    (Forall2 built_from all_lots sellers \/
     (sellers = [] /\ Exists (fun l => exists e, lot_price l = Raise e) all_lots)).
Proof.
  intros Hacc Hgame Hserver Hlots.
  rewrite get_market_prices_run, Hacc, Hgame, Hserver, Hlots.
  assert (Hcollect :
    match collect_sellers all_lots with
    | Ok sellers => Forall2 built_from all_lots sellers
    | Raise _ => Exists (fun l => exists e, lot_price l = Raise e) all_lots
    end).
  { clear. induction all_lots as [| l rest IH]; cbn [collect_sellers].
    - constructor.
    - destruct (lot_price l) as [p |e] eqn:Hp; cbn [rbind].
      + destruct (collect_sellers rest) as [sellers | e]; cbn [rbind].
        * constructor; [| exact IH]. unfold built_from. cbn. auto.
        * by apply Exists_cons_tl.
      + apply Exists_cons_hd. eauto. }
  destruct (collect_sellers all_lots) as [sellers | e]; eauto.
Qed.

Lemma snapshot_follows_lots_witness :
  exists sellers,
    get_market_prices (Market.world (float_of_Z 10) (float_of_Z 8) (Ok tt))
      (Market.dumper (PInt 1) (PInt 5))
    = (Ok sellers, Market.dumper (PInt 1) (PInt 5),
       [EvGetLots (PStr "game") (PStr "server")]) /\
    (Forall2 built_from (Market.lots (float_of_Z 10) (float_of_Z 8)) sellers \/
     (sellers = [] /\
      Exists (fun l => exists e, lot_price l = Raise e)
        (Market.lots (float_of_Z 10) (float_of_Z 8)))).
Proof.
  apply (snapshot_follows_lots
           (Market.world (float_of_Z 10) (float_of_Z 8) (Ok tt))
           (Market.dumper (PInt 1) (PInt 5))
           {| username := PStr "user"; password := PStr "secret" |}
           (PStr "game") (PStr "server"));
    vm_compute; reflexivity.
Defined.

(** ** The searches, further *)

Lemma find_cheapest_from_without_whitelist (cfg : gmap string pyval) (my : pyval)
    (sellers : list seller) (acc : option seller) :
  cfg !! "whitelist" = None ->
  find_cheapest_from cfg my acc sellers =
  if forallb (fun s => py_eq (lot_id s) my) sellers
  then Ok acc
  else Raise (KeyError "whitelist").
Proof.
  intros Hwl. induction sellers as [| s rest IH]; [reflexivity |].
  cbn [find_cheapest_from forallb].
  destruct (py_eq (lot_id s) my); cbn [andb]; [exact IH |].
  unfold in_whitelist, getitem. rewrite Hwl. reflexivity.
Qed.

(** X18. The whitelist is read only when an entry other than the own lot is
    met: with no key [whitelist] in the configuration,
    [find_cheapest_competitor] returns [None] on a collection of own
    entries (the empty one included) and raises [KeyError] on any other. *)
Theorem find_cheapest_competitor_without_whitelist (cfg : gmap string pyval)
    (sellers : list seller) (my : pyval) :
  cfg !! "lot_id" = Some my ->
  cfg !! "whitelist" = None ->
  find_cheapest_competitor cfg sellers =
  if forallb (fun s => py_eq (lot_id s) my) sellers
  then Ok None
  else Raise (KeyError "whitelist").
Proof.
  intros Hlot Hwl. unfold find_cheapest_competitor, getitem. rewrite Hlot.
  cbn [rbind]. by apply find_cheapest_from_without_whitelist.
Qed.

Lemma find_cheapest_competitor_without_whitelist_witness :
  find_cheapest_competitor (delete "whitelist" Sample.cfg) Sample.snapshot =
  if forallb (fun s => py_eq (lot_id s) (PStr "L1")) Sample.snapshot
  then Ok None
  else Raise (KeyError "whitelist").
Proof.
  apply (find_cheapest_competitor_without_whitelist
           (delete "whitelist" Sample.cfg) Sample.snapshot (PStr "L1"));
    vm_compute; reflexivity.
Defined.

Lemma find_cheapest_from_eligible (cfg : gmap string pyval) (my : pyval)
    (wl : list pyval) (sellers : list seller) (acc : option seller) :
  cfg !! "whitelist" = Some (PList wl) ->
  find_cheapest_from cfg my acc sellers =
  find_cheapest_from cfg my acc (List.filter (eligible my wl) sellers).
Proof.
  intros Hwl. revert acc.
  induction sellers as [| s rest IH]; intros acc; [reflexivity |].
  cbn [find_cheapest_from List.filter]. unfold eligible at 1.
  rewrite (in_whitelist_list cfg wl s Hwl). cbn [rbind].
  destruct (py_eq (lot_id s) my) eqn:Hself; cbn [negb andb]; [apply IH |].
  destruct (whitelisted wl s) eqn:Hw; cbn [negb]; [apply IH |].
  cbn [find_cheapest_from]. rewrite Hself, (in_whitelist_list cfg wl s Hwl), Hw.
  cbn [rbind]. destruct acc as [c |]; [| apply IH].
  destruct (SFltb (price s) (price c)); apply IH.
Qed.

(** X19. Own and whitelisted entries have no influence on the search: the
    result of [find_cheapest_competitor] is its result on the collection
    from which they are removed. *)
Theorem find_cheapest_competitor_ignores_ineligible (cfg : gmap string pyval)
    (sellers : list seller) (my : pyval) (wl : list pyval) :
  cfg !! "lot_id" = Some my ->
  cfg !! "whitelist" = Some (PList wl) ->
  find_cheapest_competitor cfg sellers =
  find_cheapest_competitor cfg (List.filter (eligible my wl) sellers).
Proof.
  intros Hlot Hwl. unfold find_cheapest_competitor, getitem. rewrite Hlot.
  cbn [rbind]. by apply find_cheapest_from_eligible.
Qed.

Lemma find_cheapest_competitor_ignores_ineligible_witness :
  find_cheapest_competitor Sample.cfg Sample.snapshot =
  find_cheapest_competitor Sample.cfg
    (List.filter (eligible (PStr "L1") [PStr "B"]) Sample.snapshot).
Proof.
  apply (find_cheapest_competitor_ignores_ineligible Sample.cfg Sample.snapshot
           (PStr "L1") [PStr "B"]); vm_compute; reflexivity.
Defined.

(** ** The constructor and the bot *)



Lemma undercut_message_bot (w : World) (me c : seller) (self : PriceDumper)
    (chat : pyval) (text : message) :
  EvSendMessage chat text ∈ trace (undercut w me c self) -> bot self <> None.
Proof.
  intros Hin Hbot. revert Hin. rewrite undercut_run. unfold trace.
  destruct (SFleb (price me) (price c)); [intros H; by apply elem_of_nil in H |].
  destruct (config self !! "price_decrease_amount") as [decrease |];
    [| intros H; by apply elem_of_nil in H].
  destruct (float_sub_val (price c) decrease) as [lowered | e];
    [| intros H; by apply elem_of_nil in H].
  destruct (config self !! "min_price") as [min_price |];
    [| intros H; by apply elem_of_nil in H].
  destruct (float_lt_val lowered min_price) as [below | e];
    [| intros H; by apply elem_of_nil in H].
  cbn zeta. rewrite update_my_price_run, send_telegram_notification_run, Hbot.
  destruct (funpay_account self) as [account |];
    [| intros H; by apply elem_of_nil in H].
  destruct (config self !! "lot_id") as [lot |];
    [| intros H; by apply elem_of_nil in H].
  destruct (change_lot_price w account lot _) as [[] | e]; cbn [fst snd app];
    intros Hin; (apply elem_of_cons in Hin as [Hin | Hin]; [discriminate |]);
    by apply elem_of_nil in Hin.
Qed.

(** X21. An object without a bot never calls Telegram: no cycle sends a
    notification, while prices are still updated. *)
Theorem no_bot_no_notification (w : World) (self : PriceDumper) :
  bot self = None ->
  Forall (fun ev => is_notification ev = false)
    (trace (check_and_update_price w self)).
Proof.
  intros Hbot. apply Forall_forall. intros ev Hin.
  destruct ev as [u p | g s | l p | chat text]; try reflexivity.
  destruct (cycle_undercut w self _ Hin eq_refl eq_refl)
    as (sellers & t0 & me & c & _ & _ & _ & _ & Hu).
  apply undercut_message_bot in Hu.
  destruct (logged_in_config w self) as [_ Hb]. congruence.
Qed.

Lemma no_bot_no_notification_witness :
  Forall (fun ev => is_notification ev = false)
    (trace (check_and_update_price
              (Market.world (float_of_Z 10) (float_of_Z 8) (Ok tt))
              {| config := Market.cfg (PInt 1) (PInt 5);
                 bot := None;
                 funpay_account := None |})).
Proof.
  apply (no_bot_no_notification
           (Market.world (float_of_Z 10) (float_of_Z 8) (Ok tt))
           {| config := Market.cfg (PInt 1) (PInt 5);
              bot := None;
              funpay_account := None |}).
  reflexivity.
Defined.

Example no_bot_still_updates :
  trace (check_and_update_price
           (Market.world (float_of_Z 10) (float_of_Z 8) (Ok tt))
           {| config := Market.cfg (PInt 1) (PInt 5);
              bot := None;
              funpay_account := None |}) =
  [EvLogin (PStr "user") (PStr "secret");
   EvGetLots (PStr "game") (PStr "server");
   EvChangeLotPrice (PStr "L1") (PFloat (float_of_Z 7))].
Proof. vm_compute. reflexivity. Qed.
